(** * phy.gui.gui: the docking main window and its persisted state

    A shallow embedding of [phy/gui/gui.py].  The window object [GUI], the
    objects it mutates (views, dock widgets, the event registry, the state
    file) and the Qt widgets it drives are gathered in one [world]; every
    method is a computation in a small state-and-exception monad over that
    world, so that a Python exception leaves behind exactly the mutations
    made before it was raised. *)

From Stdlib Require Import ZArith String DecimalString DecimalZ DecimalPos.
From stdpp Require Import gmap strings list fin_maps.

Open Scope string_scope.
Open Scope Z_scope.
Open Scope list_scope.

Set Warnings "-register-all".

(** ** Python values and exceptions *)

Inductive exn :=
| AssertionError
| ValueError
| IndexError
| KeyError
| TypeError
| AttributeError.

Inductive result (A : Type) :=
| Ok (a : A)
| Raise (e : exn).
Arguments Ok {A} a.
Arguments Raise {A} e.

(** The values an application callback returns and the values assigned to
    [status_message]: [None], booleans, integers and strings (floats are
    left out). *)
Inductive pyval :=
| PNone
| PBool (b : bool)
| PInt (z : Z)
| PStr (s : string).

(** [bool(x)] *)
Definition truthy (x : pyval) : bool :=
  match x with
  | PNone => false
  | PBool b => b
  | PInt z => negb (z =? 0)
  | PStr s => negb (String.eqb s "")
  end.

(** [x == y]; [bool] is a subclass of [int], so [False == 0]. *)
Definition py_eqb (x y : pyval) : bool :=
  match x, y with
  | PNone, PNone => true
  | PStr a, PStr b => String.eqb a b
  | PBool a, PBool b => Bool.eqb a b
  | PInt a, PInt b => a =? b
  | PBool a, PInt b | PInt b, PBool a => (if a then 1 else 0) =? b
  | _, _ => false
  end.

(** [x in l] for a list [l] *)
Definition py_in (x : pyval) (l : list pyval) : bool := existsb (py_eqb x) l.

(** ['%d' % z] *)
Definition format_d (z : Z) : string := NilZero.string_of_int (Z.to_int z).

(** [str(x)] *)
Definition py_str (x : pyval) : string :=
  match x with
  | PNone => "None"
  | PBool true => "True"
  | PBool false => "False"
  | PInt z => format_d z
  | PStr s => s
  end.

(** [l[i]] with Python's negative indices *)
Definition py_getitem {A : Type} (l : list A) (i : Z) : result A :=
  let n := Z.of_nat (length l) in
  let j := if i <? 0 then i + n else i in
  if (j <? 0) || (n <=? j) then Raise IndexError
  else match l !! Z.to_nat j with
       | Some x => Ok x
       | None => Raise IndexError
       end.

(** [l.remove(x)]: drops the first element equal to [x], [ValueError] when
    there is none. *)
Fixpoint py_remove {A : Type} `{EqDecision A} (x : A) (l : list A) : result (list A) :=
  match l with
  | [] => Raise ValueError
  | y :: l' =>
      if decide (y = x) then Ok l'
      else match py_remove x l' with
           | Ok r => Ok (y :: r)
           | Raise e => Raise e
           end
  end.

(** ** Classes, views and dock widgets *)

(** A class object: its identity and its [__name__].  Two classes of
    different modules may carry the same [__name__]. *)
Record pyclass := { cls_id : nat; __name__ : string }.

(** A view is an opaque application object; the window only looks at its
    identity and its class. *)
Record view := { view_id : nat; __class__ : pyclass }.

#[global] Instance pyclass_eq_dec : EqDecision pyclass.
Proof. solve_decision. Defined.

#[global] Instance view_eq_dec : EqDecision view.
Proof. solve_decision. Defined.

#[global] Instance pyclass_countable : Countable pyclass.
Proof.
  apply (inj_countable' (fun c => (cls_id c, __name__ c))
                        (fun p => {| cls_id := p.1; __name__ := p.2 |})).
  by intros [].
Defined.

#[global] Instance view_countable : Countable view.
Proof.
  apply (inj_countable' (fun v => (view_id v, __class__ v))
                        (fun p => {| view_id := p.1; __class__ := p.2 |})).
  by intros [].
Defined.

Inductive DockArea :=
| LeftDockWidgetArea
| RightDockWidgetArea
| TopDockWidgetArea
| BottomDockWidgetArea.

(** The [DockWidget] built by [_create_dock_widget] and placed by
    [add_view]. *)
Record DockWidget := {
  objectName : string;
  widget : view;
  DockWidgetClosable : bool;
  DockWidgetFloatable : bool;
  dock_area : option DockArea;
  isFloating : bool;
  isVisible : bool
}.

(** ** The persisted state *)

(** JSON values held by the state object; [JBytes] stands for the opaque
    geometry blobs of the toolkit. *)
Inductive json :=
| JNull
| JBool (b : bool)
| JInt (z : Z)
| JStr (s : string)
| JBytes (s : string)
| JList (l : list json)
| JDict (l : list (string * json)).

(** What is found at a path: text that does not parse, or the JSON object
    it parses to. *)
Inductive file :=
| Malformed (text : string)
| Document (d : gmap string json).

(** ** Events *)

Inductive sender :=
| SenderGUI
| SenderDock (d : nat).

#[global] Instance sender_eq_dec : EqDecision sender.
Proof. solve_decision. Defined.

(** The callbacks of the event registry.  [connect] derives the event from
    the function's name [on_<event>]. *)
Inductive callback :=
| on_close_dock_widget (v : view)
| listener (event : string) (id : nat) (returns : pyval).

Definition callback_event (c : callback) : string :=
  match c with
  | on_close_dock_widget _ => "close_dock_widget"
  | listener event _ _ => event
  end.

(** What the outside observes, oldest first. *)
Inductive effect :=
| Emit (event : string) (s : sender) (arg : option view)
| Called (id : nat)
| SetName (v : view) (name : string)
| Ignore
| NativeClose
| NativeDockClose (d : nat)
| SaveGeometry
| SaveJson (path : string)
| Log (level : string) (msg : string).

(** ** The window and its world *)

Record GUI := {
  _closed : bool;
  name : string;
  _views : list view;
  _view_class_indices : gmap pyclass Z;
  _lock_status : bool;
  _status_bar : string;
  state : gmap string json
}.

Record world := {
  gui : GUI;
  view_name : gmap view string;
  docks : list DockWidget;
  callbacks : list (callback * option sender);
  fs : gmap string file;
  saveGeometry : string;
  saveState : string;
  visible : bool;
  trace : list effect
}.

(** ** The monad *)

Definition M (A : Type) : Type := world -> result A * world.

Definition ret {A : Type} (a : A) : M A := fun w => (Ok a, w).

Definition raise {A : Type} (e : exn) : M A := fun w => (Raise e, w).

Definition bind {A B : Type} (m : M A) (k : A -> M B) : M B :=
  fun w =>
    match m w with
    | (Ok a, w') => k a w'
    | (Raise e, w') => (Raise e, w')
    end.

Declare Scope py_scope.
Delimit Scope py_scope with py.
Notation "x <- m ;; k" := (bind m (fun x => k))
  (at level 20, m at level 99, k at level 200, only parsing) : py_scope.
Notation "m ;; k" := (bind m (fun _ => k))
  (at level 100, k at level 200, right associativity, only parsing) : py_scope.
Open Scope py_scope.

Definition get : M world := fun w => (Ok w, w).

Definition modify (f : world -> world) : M unit := fun w => (Ok tt, f w).

Definition lift {A : Type} (r : result A) : M A := fun w => (r, w).

Definition assert (b : bool) : M unit :=
  if b then ret tt else raise AssertionError.

Fixpoint mapM {A B : Type} (f : A -> M B) (l : list A) : M (list B) :=
  match l with
  | [] => ret []
  | a :: l' => b <- f a ;; bs <- mapM f l' ;; ret (b :: bs)
  end.

(** *** Field updates *)

Definition set_gui (f : GUI -> GUI) (w : world) : world :=
  {| gui := f (gui w); view_name := view_name w; docks := docks w;
     callbacks := callbacks w; fs := fs w; saveGeometry := saveGeometry w;
     saveState := saveState w; visible := visible w; trace := trace w |}.

Definition set_view_name (f : gmap view string -> gmap view string)
    (w : world) : world :=
  {| gui := gui w; view_name := f (view_name w); docks := docks w;
     callbacks := callbacks w; fs := fs w; saveGeometry := saveGeometry w;
     saveState := saveState w; visible := visible w; trace := trace w |}.

Definition set_docks (f : list DockWidget -> list DockWidget) (w : world) : world :=
  {| gui := gui w; view_name := view_name w; docks := f (docks w);
     callbacks := callbacks w; fs := fs w; saveGeometry := saveGeometry w;
     saveState := saveState w; visible := visible w; trace := trace w |}.

Definition set_callbacks
    (f : list (callback * option sender) -> list (callback * option sender))
    (w : world) : world :=
  {| gui := gui w; view_name := view_name w; docks := docks w;
     callbacks := f (callbacks w); fs := fs w; saveGeometry := saveGeometry w;
     saveState := saveState w; visible := visible w; trace := trace w |}.

Definition set_fs (f : gmap string file -> gmap string file) (w : world) : world :=
  {| gui := gui w; view_name := view_name w; docks := docks w;
     callbacks := callbacks w; fs := f (fs w); saveGeometry := saveGeometry w;
     saveState := saveState w; visible := visible w; trace := trace w |}.

Definition set_visible (b : bool) (w : world) : world :=
  {| gui := gui w; view_name := view_name w; docks := docks w;
     callbacks := callbacks w; fs := fs w; saveGeometry := saveGeometry w;
     saveState := saveState w; visible := b; trace := trace w |}.

Definition add_trace (l : list effect) (w : world) : world :=
  {| gui := gui w; view_name := view_name w; docks := docks w;
     callbacks := callbacks w; fs := fs w; saveGeometry := saveGeometry w;
     saveState := saveState w; visible := visible w;
     trace := trace w ++ l |}.

Definition tell (e : effect) : M unit := modify (add_trace [e]).

Definition set__closed (b : bool) (g : GUI) : GUI :=
  {| _closed := b; name := name g; _views := _views g;
     _view_class_indices := _view_class_indices g;
     _lock_status := _lock_status g; _status_bar := _status_bar g;
     state := state g |}.

Definition set__views (l : list view) (g : GUI) : GUI :=
  {| _closed := _closed g; name := name g; _views := l;
     _view_class_indices := _view_class_indices g;
     _lock_status := _lock_status g; _status_bar := _status_bar g;
     state := state g |}.

Definition set__view_class_indices (m : gmap pyclass Z) (g : GUI) : GUI :=
  {| _closed := _closed g; name := name g; _views := _views g;
     _view_class_indices := m;
     _lock_status := _lock_status g; _status_bar := _status_bar g;
     state := state g |}.

Definition set__lock_status (b : bool) (g : GUI) : GUI :=
  {| _closed := _closed g; name := name g; _views := _views g;
     _view_class_indices := _view_class_indices g;
     _lock_status := b; _status_bar := _status_bar g;
     state := state g |}.

Definition set__status_bar (s : string) (g : GUI) : GUI :=
  {| _closed := _closed g; name := name g; _views := _views g;
     _view_class_indices := _view_class_indices g;
     _lock_status := _lock_status g; _status_bar := s;
     state := state g |}.

Definition set_state (s : gmap string json) (g : GUI) : GUI :=
  {| _closed := _closed g; name := name g; _views := _views g;
     _view_class_indices := _view_class_indices g;
     _lock_status := _lock_status g; _status_bar := _status_bar g;
     state := s |}.

(** ** Events: [emit] and [connect]

    Modelled from the spec: [emit] and [connect] of [phylib.utils], which
    [gui.py] imports.  Emission is synchronous and ordered: the callbacks
    connected to the event whose sender matches run to completion in
    subscription order, and [emit] returns the list of their results.
    Application listeners are opaque: all the window sees of one is that it
    was called and what it returned. *)

Definition matches (event : string) (s : sender)
    (c : callback * option sender) : bool :=
  String.eqb (callback_event c.1) event
  && match c.2 with
     | None => true
     | Some s' => bool_decide (s' = s)
     end.

Arguments matches : simpl never.

Definition connect (c : callback) (s : option sender) : M unit :=
  modify (set_callbacks (fun l => l ++ [(c, s)])).

Definition emit_with (call : callback -> M pyval)
    (event : string) (s : sender) (arg : option view) : M (list pyval) :=
  tell (Emit event s arg) ;;
  w <- get ;;
  mapM call (map fst (filter (fun c => matches event s c) (callbacks w))).

(** Emission from inside a callback.  The window's own closure is connected
    to [close_dock_widget], which no callback emits, so only listeners are
    met here (see [emit_nested_emit]). *)
Definition call_nested (c : callback) : M pyval :=
  match c with
  | listener _ id r => tell (Called id) ;; ret r
  | on_close_dock_widget _ => ret PNone
  end.

Definition emit_nested : string -> sender -> option view -> M (list pyval) :=
  emit_with call_nested.

(** ** The persisted state: [GUIState]

    The state object is a [Bunch], a dictionary whose attributes are its
    keys: [self.name] is the entry ["name"].  [_load_json] and [_save_json]
    are modelled from the spec: the state is persisted as JSON, a document
    reads back as the mapping that was written, and text that is not JSON
    makes [_load_json] raise [JSONDecodeError]. *)

(** [os.path.join(a, b)] *)
Definition op_join (a b : string) : string :=
  if String.prefix "/" b then b
  else if String.eqb a "" || String.eqb (substring (String.length a - 1) 1 a) "/"
       then a +:+ b
       else a +:+ "/" +:+ b.

(** [GUIState.path] *)
Definition path (s : gmap string json) : result string :=
  match s !! "config_dir", s !! "name" with
  | None, _ | _, None => Raise AttributeError
  | Some (JStr c), Some (JStr n) => Ok (op_join (op_join c n) "state.json")
  | _, _ => Raise TypeError
  end.

(** [GUIState.load]; returns the updated state object. *)
Definition load (s : gmap string json) : M (gmap string json) :=
  p <- lift (path s) ;;
  w <- get ;;
  match fs w !! p with
  | None =>
      tell (Log "debug" "The GUI state file `%s` doesn't exist.") ;;
      ret s
  | Some f =>
      tell (Log "debug" "Load the GUI state from `%s`.") ;;
      data <- match f with
              | Document d => ret d
              | Malformed _ =>
                  tell (Log "warning" "Error decoding JSON: %s") ;;
                  ret ∅
              end ;;
      ret (data ∪ s)
  end.

(** [GUIState.save] *)
Definition save (s : gmap string json) : M unit :=
  p <- lift (path s) ;;
  tell (Log "debug" "Save the GUI state to `%s`.") ;;
  let data := filter (fun kv => kv.1 ∉ ["config_dir"; "name"]) s in
  p' <- lift (path s) ;;
  modify (set_fs (insert p' (Document data))) ;;
  tell (SaveJson p').

Section Config.

(** [phy_config_dir()], the default configuration directory. *)
Variable phy_config_dir : string.

(** [GUIState.__init__] *)
Definition GUIState__init__ (name : string) (config_dir : option string)
    (kwargs : gmap string json) : M (gmap string json) :=
  let self := kwargs in
  let self := <["name" := JStr name]> self in
  let config_dir :=
    match config_dir with
    | Some c => if String.eqb c "" then phy_config_dir else c
    | None => phy_config_dir
    end in
  let self := <["config_dir" := JStr config_dir]> self in
  load self.

End Config.

(** ** The main window: [GUI] *)

(** [GUI.views] *)
Definition views (g : GUI) : list view := _views g.

(** [GUI.view_count] *)
Definition view_count (g : GUI) : gmap pyclass Z :=
  foldl (fun vc v => <[__class__ v := default 0 (vc !! __class__ v) + 1]> vc)
        ∅ (views g).

(** [GUI.list_views] *)
Definition list_views (g : GUI) (cls : pyclass) : list view :=
  filter (fun v => __class__ v = cls) (_views g).

(** [GUI.get_view]; [Ok None] is the implicit [return None]. *)
Definition get_view (g : GUI) (cls : pyclass) (index : Z) : result (option view) :=
  let views := list_views g cls in
  if index <=? Z.of_nat (length views) - 1 then
    match py_getitem views index with
    | Ok v => Ok (Some v)
    | Raise e => Raise e
    end
  else Ok None.

(** ['%s (%d)' % (basename, index)] *)
Definition format_name (basename : string) (index : Z) : string :=
  basename +:+ " (" +:+ format_d index +:+ ")".

(** [view.name = name] *)
Definition setattr_name (v : view) (name : string) : M unit :=
  modify (set_view_name (insert v name)) ;;
  tell (SetName v name).

(** [GUI._set_view_name] *)
Definition _set_view_name (v : view) : M string :=
  w <- get ;;
  assert (bool_decide (v ∉ _views (gui w))) ;;
  let cls := __class__ v in
  let basename := __name__ cls in
  let views := list_views (gui w) cls in
  name <- match views with
          | [] => ret basename
          | _ :: _ =>
              let index := default 0 (_view_class_indices (gui w) !! cls) in
              assert (1 <=? index) ;;
              ret (format_name basename index)
          end ;;
  setattr_name v name ;;
  ret name.

(** [_create_dock_widget]; the canvas adapters leave a plain widget as it
    is. *)
Definition _create_dock_widget (widget : view) (name : string)
    (closable floatable : bool) : DockWidget :=
  {| objectName := name; widget := widget;
     DockWidgetClosable := closable; DockWidgetFloatable := floatable;
     dock_area := None; isFloating := false; isVisible := false |}.

(** [_get_dock_position] *)
Definition _get_dock_position (position : option string) : result DockArea :=
  let key := match position with
             | Some p => if String.eqb p "" then "right" else p
             | None => "right"
             end in
  if String.eqb key "left" then Ok LeftDockWidgetArea
  else if String.eqb key "right" then Ok RightDockWidgetArea
  else if String.eqb key "top" then Ok TopDockWidgetArea
  else if String.eqb key "bottom" then Ok BottomDockWidgetArea
  else Raise KeyError.

Definition set_dock_area (a : DockArea) (d : DockWidget) : DockWidget :=
  {| objectName := objectName d; widget := widget d;
     DockWidgetClosable := DockWidgetClosable d;
     DockWidgetFloatable := DockWidgetFloatable d;
     dock_area := Some a; isFloating := isFloating d; isVisible := isVisible d |}.

Definition setFloating (b : bool) (d : DockWidget) : DockWidget :=
  {| objectName := objectName d; widget := widget d;
     DockWidgetClosable := DockWidgetClosable d;
     DockWidgetFloatable := DockWidgetFloatable d;
     dock_area := dock_area d; isFloating := b; isVisible := isVisible d |}.

Definition setVisible (b : bool) (d : DockWidget) : DockWidget :=
  {| objectName := objectName d; widget := widget d;
     DockWidgetClosable := DockWidgetClosable d;
     DockWidgetFloatable := DockWidgetFloatable d;
     dock_area := dock_area d; isFloating := isFloating d; isVisible := b |}.

(** [QMainWindow.addDockWidget]: the dock becomes a child of the window;
    its position among the children identifies it. *)
Definition addDockWidget (a : DockArea) (d : DockWidget) : M nat :=
  w <- get ;;
  modify (set_docks (fun l => l ++ [set_dock_area a d])) ;;
  ret (length (docks w)).

(** The closure [on_close_dock_widget] of [GUI.add_view] *)
Definition on_close_dock_widget_body (v : view) : M pyval :=
  w <- get ;;
  l <- lift (py_remove v (_views (gui w))) ;;
  modify (set_gui (set__views l)) ;;
  emit_nested "close_view" SenderGUI (Some v) ;;
  ret PNone.

Definition call (c : callback) : M pyval :=
  match c with
  | listener _ id r => tell (Called id) ;; ret r
  | on_close_dock_widget v => on_close_dock_widget_body v
  end.

Definition emit : string -> sender -> option view -> M (list pyval) :=
  emit_with call.

(** [GUI.add_view]; returns the identity of the new dock widget. *)
Definition add_view (v : view) (position : option string)
    (closable floatable : bool) (floating : option bool) : M nat :=
  name <- _set_view_name v ;;
  modify (set_gui (fun g => set__views (_views g ++ [v]) g)) ;;
  modify (set_gui (fun g =>
    set__view_class_indices
      (<[__class__ v := default 0 (_view_class_indices g !! __class__ v) + 1]>
         (_view_class_indices g)) g)) ;;
  let dock_widget := _create_dock_widget v name closable floatable in
  area <- lift (_get_dock_position position) ;;
  d <- addDockWidget area dock_widget ;;
  match floating with
  | Some b => modify (set_docks (alter (setFloating b) (d : nat)))
  | None => ret tt
  end ;;
  connect (on_close_dock_widget v) (Some (SenderDock d)) ;;
  modify (set_docks (alter (setVisible true) d)) ;;
  emit "add_view" SenderGUI (Some v) ;;
  tell (Log "5" "Add %s to GUI.") ;;
  ret d.

(** [DockWidget.closeEvent] *)
Definition DockWidget_closeEvent (d : nat) : M unit :=
  emit "close_dock_widget" (SenderDock d) None ;;
  tell (NativeDockClose d) ;;
  modify (set_docks (alter (setVisible false) d)).

(** [GUI.save_geometry_state] *)
Definition save_geometry_state : M json :=
  w <- get ;;
  tell SaveGeometry ;;
  ret (JDict [("geometry", JBytes (saveGeometry w));
              ("state", JBytes (saveState w))]).

(** [GUI.closeEvent]; the result is whether the close event [e] is still
    accepted when the slot returns.  The pause [_wait(250)] before the
    emission changes nothing and is left out. *)
Definition closeEvent : M bool :=
  w <- get ;;
  if _closed (gui w) then ret true
  else
    res <- emit "close" SenderGUI None ;;
    if py_in (PBool false) res then
      tell Ignore ;;
      ret false
    else
      tell NativeClose ;;
      modify (set_gui (set__closed true)) ;;
      tell (Log "debug" "Save the geometry state.") ;;
      gs <- save_geometry_state ;;
      modify (set_gui (fun g => set_state (<["geometry_state" := gs]> (state g)) g)) ;;
      w' <- get ;;
      save (state (gui w')) ;;
      ret true.

(** [QWidget.close] on the window: delivers the close event and hides the
    window when the event comes back accepted. *)
Definition close : M bool :=
  accepted <- closeEvent ;;
  (if accepted : bool then modify (set_visible false) else ret tt) ;;
  ret accepted.

(** [GUI.status_message], getter and setter *)
Definition status_message (g : GUI) : string := _status_bar g.

Definition set_status_message (value : pyval) (g : GUI) : GUI :=
  if _lock_status g then g
  else set__status_bar (py_str value) g.

Definition lock_status (g : GUI) : GUI := set__lock_status true g.

Definition unlock_status (g : GUI) : GUI := set__lock_status false g.

(** ** Construction and use of a window *)

(** What a window is constructed in: the files on disk, the callbacks
    already connected, and the geometry blobs the toolkit will report.  The
    [gui] field is what [GUI.__init__] fills in. *)
Definition environment (files : gmap string file)
    (connected : list (callback * option sender))
    (geometry dock_state : string) : world :=
  {| gui := {| _closed := false; name := ""; _views := [];
               _view_class_indices := ∅; _lock_status := false;
               _status_bar := ""; state := ∅ |};
     view_name := ∅; docks := []; callbacks := connected; fs := files;
     saveGeometry := geometry; saveState := dock_state; visible := false;
     trace := [] |}.

Section Window.

Variable phy_config_dir : string.

(** [GUI.__init__]: the fields the claims read, in the order of the
    source.  The menus, actions, snippets, the view creator and the
    [show] listener restoring the geometry are left out. *)
Definition GUI__init__ (name : option string) (config_dir : option string)
    (kwargs : gmap string json) : M unit :=
  let name := default "GUI" name in
  modify (set_gui (fun _ =>
    {| _closed := false; name := name; _views := [];
       _view_class_indices := ∅; _lock_status := false;
       _status_bar := ""; state := ∅ |})) ;;
  s <- GUIState__init__ phy_config_dir name config_dir kwargs ;;
  modify (set_gui (set_state s)).

End Window.

(** What happens to a window while it is open. *)
Inductive op :=
| AddView (v : view) (position : option string) (closable floatable : bool)
          (floating : option bool)
| CloseDock (d : nat)
| Connect (event : string) (id : nat) (returns : pyval) (s : option sender).

Definition step (o : op) : M unit :=
  match o with
  | AddView v position closable floatable floating =>
      add_view v position closable floatable floating ;; ret tt
  | CloseDock d =>
      w <- get ;;
      if bool_decide (d < length (docks w))%nat then DockWidget_closeEvent d
      else ret tt
  | Connect event id returns s => connect (listener event id returns) s
  end.

(** An exception ends the operation that raised it, not the window: the
    next operation starts from the world it left. *)
Definition run (ops : list op) (w : world) : world :=
  foldl (fun w o => (step o w).2) w ops.

(** ** Reading a world *)

(** The callbacks an emission of [event] by [s] runs, in subscription
    order. *)
Definition selected (event : string) (s : sender) (w : world) : list callback :=
  map fst (filter (fun c => matches event s c) (callbacks w)).

Definition is_listener (c : callback) : bool :=
  match c with
  | listener _ _ _ => true
  | on_close_dock_widget _ => false
  end.

(** What the listeners among [l] return and the trace their calls leave. *)
Definition returned (l : list callback) : list pyval :=
  omap (fun c => match c with
                 | listener _ _ r => Some r
                 | on_close_dock_widget _ => None
                 end) l.

Definition called (l : list callback) : list effect :=
  omap (fun c => match c with
                 | listener _ id _ => Some (Called id)
                 | on_close_dock_widget _ => None
                 end) l.

(** [_view_class_indices.get(cls, 0)] *)
Definition counter (g : GUI) (cls : pyclass) : Z :=
  default 0 (_view_class_indices g !! cls).

(** The name [_set_view_name] computes for [v] in the window [g]. *)
Definition next_name (g : GUI) (v : view) : string :=
  match list_views g (__class__ v) with
  | [] => __name__ (__class__ v)
  | _ :: _ => format_name (__name__ (__class__ v)) (counter g (__class__ v))
  end.

(** The window once [add_view] has appended [v] and moved the counter of
    its class. *)
Definition added (v : view) (g : GUI) : GUI :=
  set__view_class_indices
    (<[__class__ v := counter g (__class__ v) + 1]> (_view_class_indices g))
    (set__views (_views g ++ [v]) g).

(** The views whose closure [on_close_dock_widget] an emission of
    [close_dock_widget] by the dock [d] runs. *)
Definition handlers (d : nat) (l : list (callback * option sender)) : list view :=
  omap (fun c => match c.1 with
                 | on_close_dock_widget v =>
                     if matches "close_dock_widget" (SenderDock d) c then Some v
                     else None
                 | listener _ _ _ => None
                 end) l.

Arguments handlers : simpl never.

Definition is_SetName (e : effect) : bool :=
  match e with
  | SetName _ _ => true
  | _ => false
  end.

(** ** The settings of a view: [GUIState.get_view_state] and
    [update_view_state]

    The settings of a view are a dictionary kept in the state object under
    the view's name; a dictionary is an association list without repeated
    keys, in insertion order. *)

(** [d.get(k)] *)
Fixpoint dict_get (k : string) (d : list (string * json)) : option json :=
  match d with
  | [] => None
  | (k', x) :: d' => if String.eqb k' k then Some x else dict_get k d'
  end.

(** [d[k] = x]: an existing key keeps its place. *)
Fixpoint dict_set (k : string) (x : json) (d : list (string * json))
    : list (string * json) :=
  match d with
  | [] => [(k, x)]
  | (k', x') :: d' =>
      if String.eqb k' k then (k', x) :: d' else (k', x') :: dict_set k x d'
  end.

(** [d.update(other)] *)
Definition dict_update (d other : list (string * json)) : list (string * json) :=
  foldl (fun acc kv => dict_set kv.1 kv.2 acc) d other.

(** [view.name] *)
Definition getattr_name (v : view) : M string :=
  w <- get ;;
  match view_name w !! v with
  | Some n => ret n
  | None => raise AttributeError
  end.

(** [GUIState.get_view_state] *)
Definition get_view_state (s : gmap string json) (v : view) : M json :=
  n <- getattr_name v ;;
  ret (default (JDict []) (s !! n)).

(** [GUIState.update_view_state]; returns the updated state object.  Only
    a dictionary has an [update] method. *)
Definition update_view_state (s : gmap string json) (v : view)
    (state : list (string * json)) : M (gmap string json) :=
  name <- getattr_name v ;;
  let s := match s !! name with
           | Some _ => s
           | None => <[name := JDict []]> s
           end in
  match s !! name with
  | Some (JDict d) =>
      tell (Log "debug" "Update GUI state for %s") ;;
      ret (<[name := JDict (dict_update d state)]> s)
  | _ => fun w => (Raise AttributeError, w)
  end.

(** ** Restoring the geometry: [GUI.restore_geometry_state] *)

(** The calls made to the toolkit, with their argument. *)
Inductive qt_call :=
| restoreGeometry (arg : json)
| restoreState (arg : json).

(** [bool(j)] *)
Definition json_truthy (j : json) : bool :=
  match j with
  | JNull => false
  | JBool b => b
  | JInt z => negb (z =? 0)
  | JStr s => negb (String.eqb s "")
  | JBytes s => negb (String.eqb s "")
  | JList l => match l with [] => false | _ => true end
  | JDict d => match d with [] => false | _ => true end
  end.

(** [gs.get(k, None)]; only a dictionary has a [get] method. *)
Definition json_get (gs : json) (k : string) : result (option json) :=
  match gs with
  | JDict d => Ok (dict_get k d)
  | _ => Raise AttributeError
  end.

(** [GUI.restore_geometry_state]: the toolkit calls made, in order, and
    how the method ends.  [gs] is [None] when the state has no
    [geometry_state]. *)
Definition restore_geometry_state (gs : option json) : result unit * list qt_call :=
  match gs with
  | None => (Ok tt, [])
  | Some gs =>
      if negb (json_truthy gs) then (Ok tt, [])
      else
        match json_get gs "geometry" with
        | Raise e => (Raise e, [])
        | Ok geometry =>
            let calls1 :=
              match geometry with
              | Some x => if json_truthy x then [restoreGeometry x] else []
              | None => []
              end in
            match json_get gs "state" with
            | Raise e => (Raise e, calls1)
            | Ok st =>
                let calls2 :=
                  match st with
                  | Some x => if json_truthy x then [restoreState x] else []
                  | None => []
                  end in
                (Ok tt, calls1 ++ calls2)
            end
        end
  end.

(** The listener [on_show] of [GUI.__init__] *)
Definition on_show (g : GUI) : result unit * list qt_call :=
  restore_geometry_state (state g !! "geometry_state").

(** ** Menus: [GUI.get_menu]

    The menus of the window: the cache [_menus] and the menus of the menu
    bar in the order [addMenu] created them; a menu is identified by its
    position in the bar. *)
Record Menus := {
  _menus : gmap string nat;
  menuBar : list string
}.

(** [GUI.get_menu] *)
Definition get_menu (name : string) (m : Menus) : nat * Menus :=
  match _menus m !! name with
  | Some menu => (menu, m)
  | None =>
      let menu := length (menuBar m) in
      (menu, {| _menus := <[name := menu]> (_menus m);
                menuBar := menuBar m ++ [name] |})
  end.

(** ** Invariants of a session *)

(** A step that names no view: it may drop tracked views and extend the
    trace, and leaves the counters, the registry and the dock widgets'
    views alone. *)
Definition quiet (w w' : world) : Prop :=
  _view_class_indices (gui w') = _view_class_indices (gui w)
  /\ sublist (_views (gui w')) (_views (gui w))
  /\ callbacks w' = callbacks w
  /\ widget <$> docks w' = widget <$> docks w
  /\ exists tl, trace w' = trace w ++ tl
                /\ Forall (fun e => is_SetName e = false) tl.

(** Every name handed out so far is the class name or carries an index
    below the class counter; the counter of a tracked view's class is at
    least one. *)
Definition named (w : world) : Prop :=
  (forall c, 0 <= counter (gui w) c)
  /\ (forall v, v ∈ _views (gui w) -> 1 <= counter (gui w) (__class__ v))
  /\ (forall v n, SetName v n ∈ trace w ->
        n = __name__ (__class__ v)
        \/ exists k, 1 <= k < counter (gui w) (__class__ v)
                     /\ n = format_name (__name__ (__class__ v)) k).

(** Each dock of the window has exactly one closure connected, the one
    [add_view] made for the dock's view, and no view is tracked twice. *)
Definition wired (w : world) : Prop :=
  (forall d, handlers d (callbacks w)
             = match docks w !! d with
               | Some dk => [widget dk]
               | None => []
               end)
  /\ NoDup (_views (gui w)).

(** [e] records the naming of a view of class [c]. *)
Definition names_class (c : pyclass) (e : effect) : bool :=
  match e with
  | SetName v _ => bool_decide (__class__ v = c)
  | _ => false
  end.

(** The counter of a class counts the names handed out to its views, and
    bounds the number of its views that are tracked. *)
Definition counted (w : world) : Prop :=
  forall c,
    counter (gui w) c = Z.of_nat (length (filter (fun e => names_class c e) (trace w)))
    /\ Z.of_nat (length (list_views (gui w) c)) <= counter (gui w) c.

(** Each tracked view carries a name, the class name or one with an index
    below the class counter, and tracked views of one class carry
    different names. *)
Definition labelled (w : world) : Prop :=
  (forall v, v ∈ _views (gui w) ->
     exists n, view_name w !! v = Some n
               /\ (n = __name__ (__class__ v)
                   \/ exists k, 1 <= k < counter (gui w) (__class__ v)
                                /\ n = format_name (__name__ (__class__ v)) k))
  /\ (forall v1 v2, v1 ∈ _views (gui w) -> v2 ∈ _views (gui w) ->
        __class__ v1 = __class__ v2 ->
        view_name w !! v1 = view_name w !! v2 -> v1 = v2).

(** A step that leaves the names of the views and the files alone. *)
Definition silent (w w' : world) : Prop :=
  view_name w' = view_name w /\ fs w' = fs w /\ state (gui w') = state (gui w).

(** ** A session

    A window constructed on an empty disk, and views of one class, on
    which the properties below are exercised. *)

Definition Foo : pyclass := {| cls_id := 0; __name__ := "Foo" |}.

Definition foo1 : view := {| view_id := 1; __class__ := Foo |}.
Definition foo2 : view := {| view_id := 2; __class__ := Foo |}.
Definition foo3 : view := {| view_id := 3; __class__ := Foo |}.

Definition new_window : world :=
  (GUI__init__ "/home/user/.phy" None None ∅
     (environment ∅ [] "geometry" "state")).2.

(** One view added and its dock closed again. *)
Definition reopened : world :=
  run [AddView foo1 None true true None; CloseDock 0] new_window.

(** Two views, and listeners on the first dock and on the window. *)
Definition two_views : world :=
  run [AddView foo1 None true true None;
       AddView foo2 (Some "left") true false (Some true);
       Connect "close_dock_widget" 10 PNone (Some (SenderDock 0));
       Connect "close_view" 11 PNone (Some SenderGUI)] new_window.

(** A [close] listener that returns [None], and one that returns [False]. *)
Definition listening : world :=
  run [Connect "close" 20 PNone (Some SenderGUI)] new_window.

Definition vetoing : world :=
  run [Connect "close" 21 (PBool false) (Some SenderGUI)] new_window.

(** A state object as [GUIState.__init__] leaves it, with the settings of
    one view. *)
Definition some_state : gmap string json :=
  <["Foo" := JDict [("color", JStr "red"); ("scale", JInt 2)]]>
    (<["config_dir" := JStr "/home/user/.phy"]> (<["name" := JStr "GUI"]> ∅)).

(** A disk on which the state file is not JSON. *)
Definition broken_disk : world :=
  environment {["/home/user/.phy/GUI/state.json" := Malformed "{"]} []
    "geometry" "state".

(** A window whose state object lost its [name] entry. *)
Definition nameless : world :=
  set_gui (fun g => set_state (delete "name" (state g)) g) new_window.

(** * Properties *)

(** ** Status bar *)

Lemma set_status_message_unlocked (g : GUI) (value : pyval) :
  _lock_status g = false ->
  status_message (set_status_message value g) = py_str value.
Proof. intros H. unfold set_status_message. by rewrite H. Qed.

(** C9: while the lock flag is set, assigning [status_message] changes
    nothing, so that reading it still returns the current message; once
    [unlock_status] has run, an assignment shows [str(value)] again. *)
Theorem status_message_locked (g : GUI) (value value' : pyval) :
  _lock_status g = true ->
  set_status_message value g = g
  /\ status_message (set_status_message value g) = status_message g
  /\ status_message (set_status_message value' (unlock_status (set_status_message value g)))
     = py_str value'.
Proof.
  intros H.
  assert (Hg : set_status_message value g = g).
  { unfold set_status_message. by rewrite H. }
  rewrite Hg. split_and!; [done | done |].
  by apply set_status_message_unlocked.
Qed.

(** ** Looking views up *)

Lemma py_getitem_nonneg {A : Type} (l : list A) (i : Z) :
  0 <= i < Z.of_nat (length l) ->
  exists x, l !! Z.to_nat i = Some x /\ py_getitem l i = Ok x.
Proof.
  intros Hi. unfold py_getitem.
  destruct (Z.ltb_spec i 0) as [?|_]; [lia |].
  destruct (Z.ltb_spec i 0) as [?|_]; [lia |].
  destruct (Z.leb_spec (Z.of_nat (length l)) i) as [?|_]; [lia |]. simpl.
  destruct (lookup_lt_is_Some_2 l (Z.to_nat i)) as [x Hx]; [lia |].
  exists x. by rewrite Hx.
Qed.

Lemma py_getitem_negative {A : Type} (l : list A) (i : Z) :
  - Z.of_nat (length l) <= i <= -1 ->
  exists x, l !! Z.to_nat (Z.of_nat (length l) + i) = Some x /\ py_getitem l i = Ok x.
Proof.
  intros Hi. unfold py_getitem.
  destruct (Z.ltb_spec i 0) as [_|?]; [| lia].
  destruct (Z.ltb_spec (i + Z.of_nat (length l)) 0) as [?|_]; [lia |].
  destruct (Z.leb_spec (Z.of_nat (length l)) (i + Z.of_nat (length l))) as [?|_];
    [lia |]. simpl.
  replace (Z.of_nat (length l) + i) with (i + Z.of_nat (length l)) by lia.
  destruct (lookup_lt_is_Some_2 l (Z.to_nat (i + Z.of_nat (length l)))) as [x Hx];
    [lia |].
  exists x. by rewrite Hx.
Qed.

Lemma py_getitem_below {A : Type} (l : list A) (i : Z) :
  i < - Z.of_nat (length l) -> py_getitem l i = Raise IndexError.
Proof.
  intros Hi. unfold py_getitem.
  destruct (Z.ltb_spec i 0) as [_|?]; [| lia].
  destruct (Z.ltb_spec (i + Z.of_nat (length l)) 0) as [_|?]; [done | lia].
Qed.

Lemma get_view_None (g : GUI) (cls : pyclass) (i : Z) :
  get_view g cls i = Ok None <-> Z.of_nat (length (list_views g cls)) <= i.
Proof.
  unfold get_view.
  destruct (Z.leb_spec i (Z.of_nat (length (list_views g cls)) - 1)) as [Hle|Hgt].
  - split; [| lia]. intros H.
    destruct (Z_lt_le_dec i (- Z.of_nat (length (list_views g cls)))) as [Hlo|Hlo].
    + by rewrite py_getitem_below in H.
    + destruct (Z_lt_le_dec i 0) as [Hneg|Hpos].
      * destruct (py_getitem_negative (list_views g cls) i) as (x & _ & Hx);
          [lia |]. by rewrite Hx in H.
      * destruct (py_getitem_nonneg (list_views g cls) i) as (x & _ & Hx);
          [lia |]. by rewrite Hx in H.
  - split; [lia | done].
Qed.

(** C10: with [n >= 1] tracked views of class [cls] and [-n <= i <= -1],
    [get_view(cls, i)] is the view at position [n + i] among them; and
    [get_view] returns [None] exactly for the indices [k >= n]. *)
Theorem get_view_negative_index (g : GUI) (cls : pyclass) (i : Z) :
  1 <= Z.of_nat (length (list_views g cls)) ->
  - Z.of_nat (length (list_views g cls)) <= i <= -1 ->
  (exists v, list_views g cls !! Z.to_nat (Z.of_nat (length (list_views g cls)) + i) = Some v
             /\ get_view g cls i = Ok (Some v))
  /\ (forall k, get_view g cls k = Ok None <-> Z.of_nat (length (list_views g cls)) <= k).
Proof.
  intros Hn Hi. split; [| intros k; apply get_view_None].
  destruct (py_getitem_negative (list_views g cls) i) as (x & Hx & Hget); [done |].
  exists x. split; [done |]. unfold get_view.
  destruct (Z.leb_spec i (Z.of_nat (length (list_views g cls)) - 1)) as [_|?]; [| lia].
  by rewrite Hget.
Qed.

(** ** Counting views *)

Section ViewCount.

Let incr (vc : gmap pyclass Z) (v : view) : gmap pyclass Z :=
  <[__class__ v := default 0 (vc !! __class__ v) + 1]> vc.

Let total (m : gmap pyclass Z) : Z := map_fold (fun _ n acc => n + acc) 0 m.

Lemma foldl_incr_lookup (l : list view) (vc : gmap pyclass Z) (c : pyclass) :
  foldl incr vc l !! c =
    match filter (fun v => __class__ v = c) l with
    | [] => vc !! c
    | vs => Some (default 0 (vc !! c) + Z.of_nat (length vs))
    end.
Proof.
  revert vc. induction l as [|a l IH]; intros vc; [done |].
  simpl. rewrite IH. rewrite filter_cons. unfold incr at 1 2.
  destruct (decide (__class__ a = c)) as [->|Hne].
  - rewrite lookup_insert_eq. simpl.
    destruct (filter _ l) as [|b vs]; simpl; f_equal; lia.
  - by rewrite lookup_insert_ne.
Qed.

Lemma total_incr (vc : gmap pyclass Z) (v : view) :
  total (incr vc v) = total vc + 1.
Proof.
  unfold total, incr.
  destruct (vc !! __class__ v) as [x|] eqn:Hx; simpl.
  - rewrite <- (insert_delete_eq vc).
    rewrite <- (insert_delete_id vc (__class__ v) x) at 2 by done.
    rewrite !map_fold_insert_L; try (intros; lia); apply lookup_delete_eq.
  - rewrite map_fold_insert_L; [lia | intros; lia | done].
Qed.

Lemma total_foldl_incr (l : list view) (vc : gmap pyclass Z) :
  total (foldl incr vc l) = total vc + Z.of_nat (length l).
Proof.
  revert vc. induction l as [|a l IH]; intros vc; simpl; [lia |].
  rewrite IH, total_incr. lia.
Qed.

(** C8: the domain of [view_count] is the set of the classes of the
    tracked views, each class is mapped to the number of tracked views
    of that class, and the values add up to the number of tracked
    views. *)
Theorem view_count_spec (g : GUI) :
  dom (view_count g) = list_to_set (__class__ <$> views g)
  /\ (forall c n, view_count g !! c = Some n ->
                  n = Z.of_nat (length (list_views g c)))
  /\ map_fold (fun _ n acc => n + acc) 0 (view_count g)
     = Z.of_nat (length (views g)).
Proof.
  unfold view_count, list_views, views. fold incr. split_and!.
  - apply set_eq. intros c.
    rewrite elem_of_dom, foldl_incr_lookup, elem_of_list_to_set, list_elem_of_fmap.
    destruct (filter _ (_views g)) as [|b vs] eqn:Hf.
    + rewrite lookup_empty. split; [by intros [? ?] |].
      intros (v & -> & Hv).
      assert (v ∈ filter (fun v0 => __class__ v0 = __class__ v) (_views g)) as Hin
        by (by apply list_elem_of_filter).
      rewrite Hf in Hin. by apply not_elem_of_nil in Hin.
    + split; [| by eauto]. intros _.
      assert (b ∈ filter (fun v0 => __class__ v0 = c) (_views g)) as Hin
        by (rewrite Hf; left).
      apply list_elem_of_filter in Hin as [Hc Hb]. eauto.
  - intros c n. rewrite foldl_incr_lookup.
    destruct (filter _ (_views g)) as [|b vs]; [by rewrite lookup_empty |].
    rewrite lookup_empty. simpl. intros [= <-]. lia.
  - change (total (foldl incr ∅ (_views g)) = Z.of_nat (length (_views g))).
    rewrite total_foldl_incr. unfold total. by rewrite map_fold_empty.
Qed.

End ViewCount.

(** ** Emission *)

Lemma add_trace_nil (w : world) : add_trace [] w = w.
Proof. destruct w. unfold add_trace. simpl. by rewrite app_nil_r. Qed.

Lemma add_trace_add_trace (l l' : list effect) (w : world) :
  add_trace l' (add_trace l w) = add_trace (l ++ l') w.
Proof. unfold add_trace. simpl. by rewrite app_assoc. Qed.

Lemma selected_event (event : string) (s : sender) (w : world) (c : callback) :
  c ∈ selected event s w -> callback_event c = event.
Proof.
  unfold selected. rewrite list_elem_of_fmap. intros ([c' s'] & -> & Hin).
  apply list_elem_of_filter in Hin as [Hm _]. unfold matches in Hm. simpl in *.
  apply andb_prop_elim in Hm as [Hm _]. by apply Is_true_true, String.eqb_eq in Hm.
Qed.

Lemma selected_listeners (event : string) (s : sender) (w : world) :
  event <> "close_dock_widget" ->
  Forall (fun c => is_listener c = true) (selected event s w).
Proof.
  intros Hev. apply Forall_forall. intros c Hc.
  apply selected_event in Hc. destruct c; [simpl in Hc; congruence | done].
Qed.

Lemma mapM_call_listeners (l : list callback) (w : world) :
  Forall (fun c => is_listener c = true) l ->
  mapM call l w = (Ok (returned l), add_trace (called l) w).
Proof.
  intros Hl. revert w. induction Hl as [|c l Hc _ IH]; intros w.
  - simpl. by rewrite add_trace_nil.
  - destruct c as [v|ev id r]; [done |].
    simpl. unfold bind at 1. simpl. unfold bind at 1. rewrite IH. simpl.
    by rewrite add_trace_add_trace.
Qed.

Lemma mapM_call_nested (l : list callback) (w : world) :
  mapM call_nested l w
  = (Ok (map (fun c => match c with
                       | listener _ _ r => r
                       | on_close_dock_widget _ => PNone
                       end) l),
     add_trace (called l) w).
Proof.
  revert w. induction l as [|c l IH]; intros w.
  - simpl. by rewrite add_trace_nil.
  - destruct c as [v|ev id r]; simpl; unfold bind at 1; simpl.
    + unfold bind at 1. by rewrite IH.
    + unfold bind at 1. rewrite IH. simpl. by rewrite add_trace_add_trace.
Qed.

Lemma map_returned (l : list callback) :
  Forall (fun c => is_listener c = true) l ->
  map (fun c => match c with
                | listener _ _ r => r
                | on_close_dock_widget _ => PNone
                end) l = returned l.
Proof.
  induction 1 as [|c l Hc _ IH]; [done |].
  destruct c; [done |]. simpl. by rewrite IH.
Qed.

(** An event other than [close_dock_widget] only reaches listeners: its
    emission adds to the trace and changes nothing else. *)
Lemma emit_listeners (event : string) (s : sender) (arg : option view) (w : world) :
  event <> "close_dock_widget" ->
  emit event s arg w
  = (Ok (returned (selected event s w)),
     add_trace (Emit event s arg :: called (selected event s w)) w).
Proof.
  intros Hev. unfold emit, emit_with. unfold bind at 1. simpl.
  unfold bind at 1. simpl.
  change (map fst (filter _ (callbacks w))) with (selected event s w).
  rewrite mapM_call_listeners.
  - by rewrite add_trace_add_trace.
  - apply (selected_listeners event s (add_trace [Emit event s arg] w) Hev).
Qed.

(** The emission made from inside a callback agrees with [emit]. *)
Lemma emit_nested_emit (event : string) (s : sender) (arg : option view) (w : world) :
  event <> "close_dock_widget" ->
  emit_nested event s arg w = emit event s arg w.
Proof.
  intros Hev. rewrite emit_listeners by done.
  unfold emit_nested, emit_with. unfold bind at 1. simpl. unfold bind at 1. simpl.
  change (map fst (filter _ (callbacks w))) with (selected event s w).
  rewrite mapM_call_nested, add_trace_add_trace, map_returned; [done |].
  apply (selected_listeners event s w Hev).
Qed.

(** ** Closing the window *)

Lemma py_in_False (res : list pyval) :
  py_in (PBool false) res = true
  <-> exists r, r ∈ res /\ (r = PBool false \/ r = PInt 0).
Proof.
  unfold py_in. rewrite existsb_exists. split.
  - intros (r & Hin & Hr). exists r. split; [by apply list_elem_of_In |].
    destruct r as [|[]|z|s]; simpl in Hr; try done; [by left |].
    right. by destruct z.
  - intros (r & Hin & [-> | ->]); eexists; (split; [by apply list_elem_of_In |]); done.
Qed.

Lemma path_insert (s : gmap string json) (k : string) (x : json) :
  k <> "config_dir" -> k <> "name" -> path (<[k := x]> s) = path s.
Proof. intros H1 H2. unfold path. by rewrite !lookup_insert_ne. Qed.

Lemma closeEvent_closed (w : world) :
  _closed (gui w) = true -> closeEvent w = (Ok true, w).
Proof. intros Hc. unfold closeEvent. unfold bind at 1. simpl. by rewrite Hc. Qed.

(** [closeEvent] on a window that is not closed yet: the veto, or the rest
    of the slot run after the emission. *)
Lemma closeEvent_open (w : world) :
  _closed (gui w) = false ->
  closeEvent w
  = if py_in (PBool false) (returned (selected "close" SenderGUI w))
    then (Ok false,
          add_trace [Ignore]
            (add_trace (Emit "close" SenderGUI None
                          :: called (selected "close" SenderGUI w)) w))
    else (tell NativeClose ;;
          modify (set_gui (set__closed true)) ;;
          tell (Log "debug" "Save the geometry state.") ;;
          gs <- save_geometry_state ;;
          modify (set_gui (fun g =>
            set_state (<["geometry_state" := gs]> (state g)) g)) ;;
          w' <- get ;;
          save (state (gui w')) ;;
          ret true)
           (add_trace (Emit "close" SenderGUI None
                         :: called (selected "close" SenderGUI w)) w).
Proof.
  intros Hc. unfold closeEvent. unfold bind at 1. simpl. rewrite Hc.
  unfold bind at 1. rewrite emit_listeners by done.
  by destruct (py_in (PBool false) (returned (selected "close" SenderGUI w))).
Qed.

(** A close that ran to completion has set [_closed]. *)
Lemma closeEvent_closes (w w' : world) :
  closeEvent w = (Ok true, w') -> _closed (gui w') = true.
Proof.
  destruct (_closed (gui w)) eqn:Hc.
  - rewrite closeEvent_closed by done. by intros [= <-].
  - rewrite closeEvent_open by done.
    destruct (py_in _ _); [done |].
    unfold save_geometry_state, save. unfold bind. simpl.
    destruct (path _); simpl; [| done]. by intros [= <-].
Qed.

(** C2, as the code has it: a [close] listener vetoes the close by
    returning a value equal to [False].  Then the event is ignored and the
    world is left as the emission left it: nothing but the trace has
    changed, the window is still visible, no geometry was captured and no
    state was saved.  When no listener returns such a value the close
    proceeds: the native handler runs, [_closed] is set, the geometry is
    captured into the state, and the state is written to its path. *)
Theorem closeEvent_veto (w : world) :
  _closed (gui w) = false ->
  let res := returned (selected "close" SenderGUI w) in
  let w1 := add_trace (Emit "close" SenderGUI None
                         :: called (selected "close" SenderGUI w)) w in
  emit "close" SenderGUI None w = (Ok res, w1)
  /\ if py_in (PBool false) res
     then closeEvent w = (Ok false, add_trace [Ignore] w1)
          /\ close w = (Ok false, add_trace [Ignore] w1)
     else exists r w2,
          closeEvent w = (r, w2)
          /\ _closed (gui w2) = true
          /\ NativeClose ∈ trace w2
          /\ SaveGeometry ∈ trace w2
          /\ state (gui w2) !! "geometry_state"
             = Some (JDict [("geometry", JBytes (saveGeometry w));
                            ("state", JBytes (saveState w))])
          /\ forall p, path (state (gui w)) = Ok p ->
               r = Ok true
               /\ fs w2 !! p
                  = Some (Document (filter (fun kv => kv.1 ∉ ["config_dir"; "name"])
                                           (state (gui w2))))
               /\ close w = (Ok true, set_visible false w2).
Proof.
  intros Hc res w1. split; [by apply emit_listeners |].
  assert (Hclose : forall r w2, closeEvent w = (Ok r, w2) ->
            close w = (Ok r, if r then set_visible false w2 else w2)).
  { intros r w2 H. unfold close, bind. rewrite H. by destruct r. }
  assert (Hev : closeEvent w
                = if py_in (PBool false) res
                  then (Ok false, add_trace [Ignore] w1)
                  else (tell NativeClose ;;
                        modify (set_gui (set__closed true)) ;;
                        tell (Log "debug" "Save the geometry state.") ;;
                        gs <- save_geometry_state ;;
                        modify (set_gui (fun g =>
                          set_state (<["geometry_state" := gs]> (state g)) g)) ;;
                        w' <- get ;;
                        save (state (gui w')) ;;
                        ret true) w1).
  { unfold closeEvent. unfold bind at 1. simpl. rewrite Hc.
    unfold bind at 1. rewrite emit_listeners by done. fold res w1.
    by destruct (py_in (PBool false) res). }
  destruct (py_in (PBool false) res) eqn:Hin.
  - split; [done |]. by rewrite (Hclose _ _ Hev).
  - revert Hev. unfold save_geometry_state, save. unfold bind. simpl.
    rewrite path_insert by done.
    destruct (path (state (gui w))) as [p|e] eqn:Hp; simpl; intros Hev.
    + eexists _, _. split; [exact Hev |]. simpl. split_and!; try done.
      * set_solver.
      * set_solver.
      * by rewrite lookup_insert_eq.
      * intros p' [= <-]. split_and!; [done | by rewrite lookup_insert_eq |].
        by rewrite (Hclose _ _ Hev).
    + eexists _, _. split; [exact Hev |]. simpl. split_and!; try done.
      * set_solver.
      * set_solver.
      * by rewrite lookup_insert_eq.
Qed.

(** C3: once [closeEvent] has run to completion without a veto, running
    it again changes nothing: the world it returns is the world it was
    given, so that nothing is emitted, captured or saved again. *)
Theorem closeEvent_idempotent (w w' : world) :
  closeEvent w = (Ok true, w') ->
  closeEvent w' = (Ok true, w').
Proof.
  intros H. apply closeEvent_closed. by eapply closeEvent_closes.
Qed.

(** ** Loading and saving the state *)

(** C6: [load] does not raise on a bad state file.  When there is no file
    at the state's path, and when the file there is not JSON, [load]
    returns normally and the state object is what it was; only log lines
    are added to the trace, a warning in the second case. *)
Theorem load_bad_file (s : gmap string json) (w : world) (p : string) :
  path s = Ok p ->
  (fs w !! p = None \/ exists text, fs w !! p = Some (Malformed text)) ->
  exists lg, load s w = (Ok s, add_trace lg w)
             /\ Forall (fun e => exists level msg, e = Log level msg) lg
             /\ (fs w !! p <> None -> Log "warning" "Error decoding JSON: %s" ∈ lg).
Proof.
  intros Hp Hbad. unfold load. unfold bind at 1. unfold lift. rewrite Hp.
  unfold bind at 1. simpl.
  destruct Hbad as [Hf | [text Hf]]; rewrite Hf.
  - eexists. split; [reflexivity |]. split; [| done].
    repeat constructor. eauto.
  - unfold bind. simpl. rewrite !add_trace_add_trace.
    rewrite (left_id_L ∅ (∪)). eexists. split; [reflexivity |].
    split; [| set_solver]. repeat constructor; eauto.
Qed.

Lemma save_ok (s : gmap string json) (w : world) (p : string) :
  path s = Ok p ->
  save s w
  = (Ok tt,
     add_trace [SaveJson p]
       (set_fs (insert p (Document (filter (fun kv => kv.1 ∉ ["config_dir"; "name"]) s)))
          (add_trace [Log "debug" "Save the GUI state to `%s`."] w))).
Proof. intros Hp. unfold save, bind, lift. by rewrite Hp. Qed.

Lemma saved_union (s : gmap string json) (n c : string) :
  s !! "name" = Some (JStr n) ->
  s !! "config_dir" = Some (JStr c) ->
  filter (fun kv => kv.1 ∉ ["config_dir"; "name"]) s
    ∪ <["config_dir" := JStr c]> (<["name" := JStr n]> ∅)
  = s.
Proof.
  intros Hn Hc. apply map_eq. intros k.
  rewrite lookup_union, map_lookup_filter.
  destruct (decide (k = "config_dir")) as [->|Hk1].
  - by rewrite lookup_insert_eq, Hc.
  - rewrite lookup_insert_ne by done.
    destruct (decide (k = "name")) as [->|Hk2].
    + by rewrite lookup_insert_eq, Hn.
    + rewrite lookup_insert_ne, lookup_empty by done.
      destruct (s !! k) as [x|]; simpl; [| done].
      rewrite option_guard_True; [done |]. simpl. intros Hin.
      apply elem_of_cons in Hin as [? | Hin]; [done |].
      apply elem_of_cons in Hin as [? | Hin]; [done |].
      by apply elem_of_nil in Hin.
Qed.

(** C5: after [save], a new state object made for the same name and
    configuration directory holds, under every key other than the
    bookkeeping keys [config_dir] and [name], what the saved object holds;
    the file written is the saved object without those two keys, and the
    bookkeeping keys of the new object are those of the saved one, so that
    the two objects are equal. *)
Theorem save_load_roundtrip (phy_config_dir : string) (s : gmap string json)
    (w : world) (n c : string) :
  s !! "name" = Some (JStr n) ->
  s !! "config_dir" = Some (JStr c) ->
  c <> "" ->
  exists p w1 s' w2,
    save s w = (Ok tt, w1)
    /\ path s = Ok p
    /\ fs w1 !! p = Some (Document (filter (fun kv => kv.1 ∉ ["config_dir"; "name"]) s))
    /\ GUIState__init__ phy_config_dir n (Some c) ∅ w1 = (Ok s', w2)
    /\ (forall k, k <> "config_dir" -> k <> "name" -> s' !! k = s !! k)
    /\ s' = s.
Proof.
  intros Hn Hc Hne.
  assert (Hp : path s = Ok (op_join (op_join c n) "state.json")).
  { unfold path. by rewrite Hc, Hn. }
  set (w1 := add_trace [SaveJson (op_join (op_join c n) "state.json")]
               (set_fs (insert (op_join (op_join c n) "state.json")
                          (Document (filter (fun kv => kv.1 ∉ ["config_dir"; "name"]) s)))
                  (add_trace [Log "debug" "Save the GUI state to `%s`."] w))).
  assert (Hinit : GUIState__init__ phy_config_dir n (Some c) ∅ w1
                  = (Ok s, add_trace [Log "debug" "Load the GUI state from `%s`."] w1)).
  { unfold GUIState__init__.
    assert (Hc' : (if String.eqb c "" then phy_config_dir else c) = c).
    { by destruct (String.eqb_spec c ""). }
    rewrite Hc'. unfold load. unfold bind at 1. unfold lift.
    assert (Hp' : path (<["config_dir" := JStr c]> (<["name" := JStr n]> ∅))
                  = Ok (op_join (op_join c n) "state.json")).
    { unfold path. rewrite lookup_insert_eq, lookup_insert_ne, lookup_insert_eq; done. }
    rewrite Hp'. unfold bind at 1. simpl. rewrite lookup_insert_eq.
    unfold bind. simpl. by rewrite (saved_union s n c Hn Hc). }
  exists (op_join (op_join c n) "state.json"), w1, s,
         (add_trace [Log "debug" "Load the GUI state from `%s`."] w1).
  split; [by apply save_ok |]. split; [done |].
  split; [simpl; by rewrite lookup_insert_eq |]. done.
Qed.

(** ** Names *)

Lemma length_append (s t : string) :
  String.length (s +:+ t) = (String.length s + String.length t)%nat.
Proof. induction s as [|a s IH]; simpl; [done | by rewrite IH]. Qed.

Lemma append_inj_l (s s' t : string) : s +:+ t = s' +:+ t -> s = s'.
Proof.
  revert s'. induction s as [|a s IH]; intros [|a' s'] H.
  - done.
  - apply (f_equal String.length) in H. rewrite !length_append in H.
    simpl in H. lia.
  - apply (f_equal String.length) in H. rewrite !length_append in H.
    simpl in H. lia.
  - cbn in H. injection H as -> H. f_equal. by apply IH.
Qed.

Lemma to_int_nonnil (z : Z) :
  Z.to_int z <> Decimal.Pos Decimal.Nil /\ Z.to_int z <> Decimal.Neg Decimal.Nil.
Proof.
  destruct z as [|p|p]; simpl; split; try done;
    intros [= H]; by apply Unsigned.to_uint_nonnil in H.
Qed.

Lemma format_d_inj (k k' : Z) : format_d k = format_d k' -> k = k'.
Proof.
  unfold format_d. intros H.
  apply (f_equal NilZero.int_of_string) in H.
  destruct (to_int_nonnil k), (to_int_nonnil k').
  rewrite !NilZero.isi in H by done.
  injection H as H. apply (f_equal Z.of_int) in H. by rewrite !of_to in H.
Qed.

Lemma format_name_inj (b : string) (k k' : Z) :
  format_name b k = format_name b k' -> k = k'.
Proof.
  unfold format_name. intros H.
  apply String.app_inj, String.app_inj, append_inj_l in H.
  by apply format_d_inj.
Qed.

Lemma format_name_basename (b : string) (k : Z) : format_name b k <> b.
Proof.
  unfold format_name. intros H. apply (f_equal String.length) in H.
  rewrite !length_append in H. simpl in H. lia.
Qed.

(** ** Adding a view *)

Lemma _set_view_name_tracked (v : view) (w : world) :
  v ∈ _views (gui w) -> _set_view_name v w = (Raise AssertionError, w).
Proof.
  intros Hv. unfold _set_view_name. unfold bind at 1. simpl.
  rewrite bool_decide_eq_false_2 by (intros H; by apply H). done.
Qed.

Lemma _set_view_name_ok (v : view) (w : world) :
  v ∉ _views (gui w) ->
  (list_views (gui w) (__class__ v) <> [] -> 1 <= counter (gui w) (__class__ v)) ->
  _set_view_name v w
  = (Ok (next_name (gui w) v),
     add_trace [SetName v (next_name (gui w) v)]
       (set_view_name (insert v (next_name (gui w) v)) w)).
Proof.
  intros Hv Hidx. unfold _set_view_name, next_name. unfold bind at 1. simpl.
  rewrite bool_decide_eq_true_2 by done. unfold bind at 1. simpl.
  destruct (list_views (gui w) (__class__ v)) as [|v0 vs]; [done |].
  unfold bind at 2. fold (counter (gui w) (__class__ v)).
  destruct (Z.leb_spec 1 (counter (gui w) (__class__ v))) as [_|Hlt]; [done |].
  specialize (Hidx ltac:(done)). lia.
Qed.

Lemma _set_view_name_index (v : view) (w : world) :
  v ∉ _views (gui w) ->
  list_views (gui w) (__class__ v) <> [] ->
  counter (gui w) (__class__ v) < 1 ->
  _set_view_name v w = (Raise AssertionError, w).
Proof.
  intros Hv Hl Hidx. unfold _set_view_name. unfold bind at 1. simpl.
  rewrite bool_decide_eq_true_2 by done. unfold bind at 1. simpl.
  destruct (list_views (gui w) (__class__ v)) as [|v0 vs]; [done |].
  unfold bind at 2. fold (counter (gui w) (__class__ v)).
  destruct (Z.leb_spec 1 (counter (gui w) (__class__ v))) as [?|_]; [lia | done].
Qed.

(** When its assertions fail, [add_view] leaves the world as it was. *)
Lemma add_view_refused (v : view) (position : option string)
    (closable floatable : bool) (floating : option bool) (w : world) :
  _set_view_name v w = (Raise AssertionError, w) ->
  add_view v position closable floatable floating w = (Raise AssertionError, w).
Proof. intros H. unfold add_view. unfold bind at 1. by rewrite H. Qed.

Lemma bind_ok {A B : Type} (m : M A) (k : A -> M B) (w w1 : world) (a : A) :
  m w = (Ok a, w1) -> bind m k w = k a w1.
Proof. intros H. unfold bind. by rewrite H. Qed.

Lemma bind_raise {A B : Type} (m : M A) (k : A -> M B) (w w1 : world) (e : exn) :
  m w = (Raise e, w1) -> bind m k w = (Raise e, w1).
Proof. intros H. unfold bind. by rewrite H. Qed.

Lemma bind_modify {B : Type} (f : world -> world) (k : unit -> M B) (w : world) :
  bind (modify f) k w = k tt (f w).
Proof. done. Qed.

Lemma bind_tell {B : Type} (e : effect) (k : unit -> M B) (w : world) :
  bind (tell e) k w = k tt (add_trace [e] w).
Proof. done. Qed.

Lemma bind_get {B : Type} (k : world -> M B) (w : world) :
  bind get k w = k w w.
Proof. done. Qed.

Lemma bind_ret {A B : Type} (a : A) (k : A -> M B) (w : world) :
  bind (ret a) k w = k a w.
Proof. done. Qed.

Lemma bind_lift {A B : Type} (r : result A) (k : A -> M B) (w : world) :
  bind (lift r) k w = match r with Ok a => k a w | Raise e => (Raise e, w) end.
Proof. by destruct r. Qed.

Lemma addDockWidget_eq (a : DockArea) (d : DockWidget) (w : world) :
  addDockWidget a d w
  = (Ok (length (docks w)), set_docks (fun l => l ++ [set_dock_area a d]) w).
Proof. done. Qed.

Lemma connect_eq (c : callback) (s : option sender) (w : world) :
  connect c s w = (Ok tt, set_callbacks (fun l => l ++ [(c, s)]) w).
Proof. done. Qed.

Lemma alter_snoc {A : Type} (f : A -> A) (l : list A) (x : A) :
  alter f (length l) (l ++ [x]) = l ++ [f x].
Proof.
  replace (length l) with (length l + 0)%nat by lia. by rewrite alter_app_r.
Qed.

Lemma add_view_named (v : view) (position : option string)
    (closable floatable : bool) (floating : option bool) (w : world) :
  _set_view_name v w
  = (Ok (next_name (gui w) v),
     add_trace [SetName v (next_name (gui w) v)]
       (set_view_name (insert v (next_name (gui w) v)) w)) ->
  let r := add_view v position closable floatable floating w in
  gui r.2 = added v (gui w)
  /\ view_name r.2 = <[v := next_name (gui w) v]> (view_name w)
  /\ fs r.2 = fs w
  /\ visible r.2 = visible w
  /\ (exists tl, trace r.2 = trace w ++ SetName v (next_name (gui w) v) :: tl
                 /\ Forall (fun e => is_SetName e = false) tl)
  /\ match _get_dock_position position with
     | Raise e => r.1 = Raise e /\ docks r.2 = docks w /\ callbacks r.2 = callbacks w
     | Ok a =>
         r.1 = Ok (length (docks w))
         /\ (exists dk, docks r.2 = docks w ++ [dk] /\ widget dk = v
                        /\ objectName dk = next_name (gui w) v)
         /\ callbacks r.2
            = callbacks w ++ [(on_close_dock_widget v, Some (SenderDock (length (docks w))))]
     end.
Proof.
  intros Hname r. subst r.
  assert (Hcalled : forall l, Forall (fun e => is_SetName e = false) (called l)).
  { intros l. induction l as [|[] l IH]; simpl; [done | done | by constructor]. }
  unfold add_view. rewrite (bind_ok _ _ _ _ _ Hname).
  rewrite !bind_modify, bind_lift.
  destruct (_get_dock_position position) as [a|e].
  - cbv beta iota. rewrite (bind_ok _ _ _ _ _ (addDockWidget_eq _ _ _)).
    destruct floating as [b|].
    + rewrite bind_modify, (bind_ok _ _ _ _ _ (connect_eq _ _ _)), bind_modify.
      rewrite (bind_ok _ _ _ _ _ (emit_listeners "add_view" SenderGUI (Some v) _ ltac:(done))).
      rewrite bind_tell. unfold ret. cbn -[next_name added selected called].
      rewrite !alter_snoc. split_and!; try done; try (by eexists).
      eexists. split; [rewrite <- !app_assoc; reflexivity |].
      apply Forall_app; split; [| by constructor]. constructor; [done | apply Hcalled].
    + rewrite bind_ret, (bind_ok _ _ _ _ _ (connect_eq _ _ _)), bind_modify.
      rewrite (bind_ok _ _ _ _ _ (emit_listeners "add_view" SenderGUI (Some v) _ ltac:(done))).
      rewrite bind_tell. unfold ret. cbn -[next_name added selected called].
      rewrite !alter_snoc. split_and!; try done; try (by eexists).
      eexists. split; [rewrite <- !app_assoc; reflexivity |].
      apply Forall_app; split; [| by constructor]. constructor; [done | apply Hcalled].
  - cbn -[next_name added]. split_and!; try done. exists []. split; [done | constructor].
Qed.

Lemma list_views_added (v : view) (g : GUI) (cls : pyclass) :
  list_views (added v g) cls
  = list_views g cls ++ (if decide (__class__ v = cls) then [v] else []).
Proof.
  unfold list_views, added. simpl. rewrite filter_app, filter_cons, filter_nil.
  by destruct (decide (__class__ v = cls)).
Qed.

Lemma counter_added (v : view) (g : GUI) (cls : pyclass) :
  counter (added v g) cls
  = if decide (__class__ v = cls) then counter g cls + 1 else counter g cls.
Proof.
  unfold counter, added. simpl. destruct (decide (__class__ v = cls)) as [->|Hne].
  - by rewrite lookup_insert_eq.
  - by rewrite lookup_insert_ne.
Qed.

Lemma list_views_nil (g : GUI) (v : view) :
  list_views g (__class__ v) = [] -> v ∉ _views g.
Proof.
  intros Hl Hv.
  assert (v ∈ list_views g (__class__ v)) as Hin by (by apply list_elem_of_filter).
  rewrite Hl in Hin. by apply not_elem_of_nil in Hin.
Qed.

(** C4: in a window to which no view of class [cls] was added before,
    the first view of that class added is named after the class, the
    second gets the suffix [" (1)"] and the third [" (2)"], whatever the
    dock position and options given; the three are then tracked under
    these names. *)
Theorem add_view_names (w : world) (cls : pyclass) (v1 v2 v3 : view)
    (p1 p2 p3 : option string) (c1 f1 c2 f2 c3 f3 : bool)
    (g1 g2 g3 : option bool) :
  __class__ v1 = cls -> __class__ v2 = cls -> __class__ v3 = cls ->
  v1 <> v2 -> v1 <> v3 -> v2 <> v3 ->
  list_views (gui w) cls = [] ->
  counter (gui w) cls = 0 ->
  let w1 := (add_view v1 p1 c1 f1 g1 w).2 in
  let w2 := (add_view v2 p2 c2 f2 g2 w1).2 in
  let w3 := (add_view v3 p3 c3 f3 g3 w2).2 in
  view_name w1 !! v1 = Some (__name__ cls)
  /\ view_name w2 !! v2 = Some (__name__ cls +:+ " (1)")
  /\ view_name w3 !! v3 = Some (__name__ cls +:+ " (2)")
  /\ view_name w3 !! v1 = Some (__name__ cls)
  /\ view_name w3 !! v2 = Some (__name__ cls +:+ " (1)")
  /\ list_views (gui w3) cls = [v1; v2; v3].
Proof.
  intros H1 H2 H3 H12 H13 H23 Hl Hc w1 w2 w3.
  (* first view *)
  assert (Hn1 : v1 ∉ _views (gui w)) by (apply list_views_nil; by rewrite H1).
  assert (Hname1 : next_name (gui w) v1 = __name__ cls).
  { unfold next_name. by rewrite H1, Hl. }
  destruct (add_view_named v1 p1 c1 f1 g1 w) as (Hg1 & Hv1 & _).
  { apply _set_view_name_ok; [done |]. by rewrite H1, Hl. }
  fold w1 in Hg1, Hv1. rewrite Hname1 in Hv1.
  assert (Hl1 : list_views (gui w1) cls = [v1]).
  { rewrite Hg1, list_views_added, Hl. by rewrite decide_True. }
  assert (Hc1 : counter (gui w1) cls = 1).
  { rewrite Hg1, counter_added, decide_True by done. lia. }
  assert (Hviews1 : _views (gui w1) = _views (gui w) ++ [v1]) by (by rewrite Hg1).
  (* second view *)
  assert (Hn2 : v2 ∉ _views (gui w1)).
  { rewrite Hviews1, elem_of_app, list_elem_of_singleton.
    intros [Hin | ?]; [| done]. revert Hin. apply list_views_nil. by rewrite H2. }
  assert (Hname2 : next_name (gui w1) v2 = __name__ cls +:+ " (1)").
  { unfold next_name. by rewrite H2, Hl1, Hc1. }
  destruct (add_view_named v2 p2 c2 f2 g2 w1) as (Hg2 & Hv2 & _).
  { apply _set_view_name_ok; [done |]. rewrite H2, Hc1. done. }
  fold w2 in Hg2, Hv2. rewrite Hname2 in Hv2.
  assert (Hl2 : list_views (gui w2) cls = [v1; v2]).
  { rewrite Hg2, list_views_added, Hl1. by rewrite decide_True. }
  assert (Hc2 : counter (gui w2) cls = 2).
  { rewrite Hg2, counter_added, decide_True by done. lia. }
  assert (Hviews2 : _views (gui w2) = _views (gui w1) ++ [v2]) by (by rewrite Hg2).
  (* third view *)
  assert (Hn3 : v3 ∉ _views (gui w2)).
  { rewrite Hviews2, Hviews1, !elem_of_app, !list_elem_of_singleton.
    intros [[Hin | ?] | ?]; [| done | done].
    revert Hin. apply list_views_nil. by rewrite H3. }
  assert (Hname3 : next_name (gui w2) v3 = __name__ cls +:+ " (2)").
  { unfold next_name. by rewrite H3, Hl2, Hc2. }
  destruct (add_view_named v3 p3 c3 f3 g3 w2) as (Hg3 & Hv3 & _).
  { apply _set_view_name_ok; [done |]. rewrite H3, Hc2. done. }
  fold w3 in Hg3, Hv3. rewrite Hname3 in Hv3.
  split_and!.
  - by rewrite Hv1, lookup_insert_eq.
  - by rewrite Hv2, lookup_insert_eq.
  - by rewrite Hv3, lookup_insert_eq.
  - rewrite Hv3, lookup_insert_ne, Hv2, lookup_insert_ne, Hv1, lookup_insert_eq; done.
  - rewrite Hv3, lookup_insert_ne, Hv2, lookup_insert_eq; done.
  - rewrite Hg3, list_views_added, Hl2. by rewrite decide_True.
Qed.

(** ** Closing a dock *)

Lemma py_remove_elem {A : Type} `{EqDecision A} (x : A) (l : list A) :
  x ∈ l ->
  exists l1 l2, l = l1 ++ x :: l2 /\ (x ∉ l1) /\ py_remove x l = Ok (l1 ++ l2).
Proof.
  induction l as [|y l IH]; intros Hin; [by apply elem_of_nil in Hin |].
  simpl. destruct (decide (y = x)) as [->|Hne].
  - exists [], l. split_and!; [done | apply not_elem_of_nil | done].
  - apply elem_of_cons in Hin as [-> | Hin]; [done |].
    destruct (IH Hin) as (l1 & l2 & -> & Hl1 & ->).
    exists (y :: l1), l2. split_and!; [done | | done].
    rewrite not_elem_of_cons. split; [congruence | done].
Qed.

Lemma py_remove_sublist {A : Type} `{EqDecision A} (x : A) (l l' : list A) :
  py_remove x l = Ok l' -> sublist l' l.
Proof.
  revert l'. induction l as [|y l IH]; intros l'; simpl; [done |].
  destruct (decide (y = x)) as [->|Hne].
  - intros [= ->]. by apply sublist_cons.
  - destruct (py_remove x l) as [r|e]; [| done].
    intros [= <-]. apply sublist_skip. by apply IH.
Qed.

Lemma quiet_refl (w : world) : quiet w w.
Proof.
  unfold quiet. split_and!; try done. exists []. by rewrite app_nil_r.
Qed.

Lemma quiet_trans (w1 w2 w3 : world) : quiet w1 w2 -> quiet w2 w3 -> quiet w1 w3.
Proof.
  intros (Hi & Hv & Hc & Hd & tl & Ht & Hs) (Hi' & Hv' & Hc' & Hd' & tl' & Ht' & Hs').
  unfold quiet. split_and!; try congruence.
  - by etrans.
  - exists (tl ++ tl'). split; [by rewrite Ht', Ht, app_assoc |].
    by apply Forall_app.
Qed.

Lemma quiet_add_trace (l : list effect) (w : world) :
  Forall (fun e => is_SetName e = false) l -> quiet w (add_trace l w).
Proof. intros Hl. unfold quiet. simpl. split_and!; try done. by exists l. Qed.

Lemma called_not_SetName (l : list callback) :
  Forall (fun e => is_SetName e = false) (called l).
Proof. induction l as [|[] l IH]; simpl; [done | done | by constructor]. Qed.

Lemma on_close_dock_widget_body_quiet (v : view) (w : world) :
  quiet w (on_close_dock_widget_body v w).2.
Proof.
  unfold on_close_dock_widget_body. unfold bind at 1. simpl.
  unfold bind at 1. unfold lift.
  destruct (py_remove v (_views (gui w))) as [l|e] eqn:Hrm; [| apply quiet_refl].
  unfold bind at 1. simpl. unfold bind at 1.
  unfold emit_nested, emit_with. unfold bind at 1. simpl. unfold bind at 1. simpl.
  rewrite mapM_call_nested. simpl. unfold quiet. simpl.
  split_and!; try done; [by eapply py_remove_sublist |].
  eexists. split; [rewrite <- app_assoc; reflexivity |].
  constructor; [done |]. apply called_not_SetName.
Qed.

Lemma call_quiet (c : callback) (w : world) : quiet w (call c w).2.
Proof.
  destruct c as [v|ev id r]; [apply on_close_dock_widget_body_quiet |].
  simpl. unfold bind. simpl. apply quiet_add_trace. by constructor.
Qed.

Lemma mapM_call_quiet (l : list callback) (w : world) : quiet w (mapM call l w).2.
Proof.
  revert w. induction l as [|c l IH]; intros w; [apply quiet_refl |].
  simpl. unfold bind at 1.
  pose proof (call_quiet c w) as Hc.
  destruct (call c w) as [[r|e] w1]; [| done].
  simpl in Hc. unfold bind at 1.
  pose proof (IH w1) as Hl.
  destruct (mapM call l w1) as [[rs|e] w2]; simpl in *; by eapply quiet_trans.
Qed.

Lemma emit_quiet (event : string) (s : sender) (arg : option view) (w : world) :
  quiet w (emit event s arg w).2.
Proof.
  unfold emit, emit_with. unfold bind at 1. simpl. unfold bind at 1. simpl.
  eapply quiet_trans; [| apply mapM_call_quiet].
  apply quiet_add_trace. by constructor.
Qed.

Lemma DockWidget_closeEvent_quiet (d : nat) (w : world) :
  quiet w (DockWidget_closeEvent d w).2.
Proof.
  unfold DockWidget_closeEvent. unfold bind at 1.
  pose proof (emit_quiet "close_dock_widget" (SenderDock d) None w) as He.
  destruct (emit _ _ _ w) as [[r|e] w1]; [| done]. simpl in He.
  unfold bind. simpl. eapply quiet_trans; [exact He |].
  unfold quiet. simpl. split_and!; try done.
  - apply list_eq. intros i. rewrite !list_lookup_fmap, list_lookup_alter.
    destruct (decide (d = i)) as [->|Hne]; [| done].
    by destruct (docks w1 !! i).
  - eexists. split; [reflexivity |]. by constructor.
Qed.

(** ** Names handed out during a session *)

Lemma named_quiet (w w' : world) : named w -> quiet w w' -> named w'.
Proof.
  intros (H0 & H1 & H2) (Hi & Hv & _ & _ & tl & Ht & Hs).
  assert (Hc : forall c, counter (gui w') c = counter (gui w) c).
  { intros c. unfold counter. by rewrite Hi. }
  unfold named. split_and!.
  - intros c. rewrite Hc. apply H0.
  - intros v Hin. rewrite Hc. apply H1. by eapply elem_of_sublist.
  - intros v n. rewrite Ht, elem_of_app. intros [Hin | Hin].
    + rewrite Hc. by apply H2.
    + rewrite Forall_forall in Hs. by apply Hs in Hin.
Qed.

Lemma list_views_tracked (g : GUI) (cls : pyclass) :
  list_views g cls <> [] -> exists v, v ∈ _views g /\ __class__ v = cls.
Proof.
  unfold list_views. destruct (filter _ (_views g)) as [|v l] eqn:Hf; [done |].
  intros _. exists v.
  assert (v ∈ filter (fun v0 => __class__ v0 = cls) (_views g)) as Hin
    by (rewrite Hf; left).
  by apply list_elem_of_filter in Hin as [? ?].
Qed.

(** In a window whose names are as [named] says, [_set_view_name] fails
    only on a view that is already tracked. *)
Lemma _set_view_name_named (v : view) (w : world) :
  named w ->
  (v ∈ _views (gui w) /\ _set_view_name v w = (Raise AssertionError, w))
  \/ ((v ∉ _views (gui w))
      /\ _set_view_name v w
         = (Ok (next_name (gui w) v),
            add_trace [SetName v (next_name (gui w) v)]
              (set_view_name (insert v (next_name (gui w) v)) w))).
Proof.
  intros (_ & H1 & _).
  destruct (decide (v ∈ _views (gui w))) as [Hin | Hnin].
  - left. split; [done |]. by apply _set_view_name_tracked.
  - right. split; [done |]. apply _set_view_name_ok; [done |].
    intros Hl. apply list_views_tracked in Hl as (v0 & Hv0 & <-). by apply H1.
Qed.

Lemma named_add_view (v : view) (position : option string)
    (closable floatable : bool) (floating : option bool) (w : world) :
  named w -> named (add_view v position closable floatable floating w).2.
Proof.
  intros Hw. destruct (_set_view_name_named v w Hw) as [[_ Hn] | [Hnin Hn]].
  - by rewrite (add_view_refused _ _ _ _ _ _ Hn).
  - destruct (add_view_named v position closable floatable floating w Hn)
      as (Hg & _ & _ & _ & (tl & Ht & Hs) & _).
    destruct Hw as (H0 & H1 & H2).
    assert (Hc : forall c, counter (gui w) c
                           <= counter (gui (add_view v position closable floatable
                                              floating w).2) c).
    { intros c. rewrite Hg, counter_added. destruct (decide _); lia. }
    unfold named. split_and!.
    + intros c. specialize (H0 c). specialize (Hc c). lia.
    + intros v'. rewrite Hg at 1. simpl. rewrite elem_of_app, list_elem_of_singleton.
      intros [Hin | ->].
      * specialize (H1 v' Hin). specialize (Hc (__class__ v')). lia.
      * rewrite Hg, counter_added, decide_True by done.
        specialize (H0 (__class__ v)). lia.
    + intros v' n. rewrite Ht, elem_of_app, elem_of_cons.
      intros [Hin | [Heq | Hin]].
      * destruct (H2 v' n Hin) as [-> | (k & Hk & ->)]; [by left |].
        right. exists k. split; [| done]. specialize (Hc (__class__ v')). lia.
      * injection Heq as -> ->. unfold next_name.
        destruct (list_views (gui w) (__class__ v)) as [|v0 vs] eqn:Hl; [by left |].
        right. exists (counter (gui w) (__class__ v)). split; [| done].
        rewrite Hg, counter_added, decide_True by done.
        assert (list_views (gui w) (__class__ v) <> []) as Hne by (by rewrite Hl).
        apply list_views_tracked in Hne as (v1 & Hv1 & Hcls).
        specialize (H1 v1 Hv1). rewrite Hcls in H1. lia.
      * rewrite Forall_forall in Hs. by apply Hs in Hin.
Qed.

Lemma named_step (o : op) (w : world) : named w -> named (step o w).2.
Proof.
  intros Hw. destruct o as [v p c f g | d | ev id r s]; simpl.
  - unfold bind. pose proof (named_add_view v p c f g w Hw) as H.
    by destruct (add_view v p c f g w) as [[?|?] ?].
  - unfold bind. simpl. destruct (bool_decide _); [| done].
    eapply named_quiet; [done | apply DockWidget_closeEvent_quiet].
  - done.
Qed.

Lemma named_run (ops : list op) (w : world) : named w -> named (run ops w).
Proof.
  revert w. induction ops as [|o ops IH]; intros w Hw; [done |].
  simpl. apply IH. by apply named_step.
Qed.

(** A new window tracks no view, has named none, and owns no dock; its
    construction does not raise. *)
Lemma GUI__init___spec (phy_config_dir : string) (name config_dir : option string)
    (kwargs : gmap string json) (files : gmap string file)
    (connected : list (callback * option sender)) (geometry dock_state : string) :
  let r := GUI__init__ phy_config_dir name config_dir kwargs
             (environment files connected geometry dock_state) in
  r.1 = Ok tt
  /\ _views (gui r.2) = []
  /\ _view_class_indices (gui r.2) = ∅
  /\ _closed (gui r.2) = false
  /\ callbacks r.2 = connected
  /\ docks r.2 = []
  /\ Forall (fun e => is_SetName e = false) (trace r.2).
Proof.
  intros r. subst r.
  remember (GUI__init__ phy_config_dir name config_dir kwargs
              (environment files connected geometry dock_state)) as r eqn:Hr.
  unfold GUI__init__, GUIState__init__, load in Hr.
  unfold bind at 1 in Hr. simpl in Hr. unfold bind at 1 in Hr.
  unfold bind at 1 in Hr. unfold lift in Hr. unfold path in Hr.
  rewrite lookup_insert_eq, lookup_insert_ne, lookup_insert_eq in Hr by done.
  unfold bind at 1 in Hr. simpl in Hr.
  destruct (files !! _) as [[text|d]|]; unfold bind in Hr; simpl in Hr;
    subst r; simpl; split_and!; try done; repeat constructor.
Qed.

Lemma named_new_window (phy_config_dir : string) (name config_dir : option string)
    (kwargs : gmap string json) (files : gmap string file)
    (connected : list (callback * option sender)) (geometry dock_state : string) :
  named (GUI__init__ phy_config_dir name config_dir kwargs
           (environment files connected geometry dock_state)).2.
Proof.
  destruct (GUI__init___spec phy_config_dir name config_dir kwargs files connected
              geometry dock_state) as (_ & Hv & Hi & _ & _ & _ & Ht).
  unfold named, counter. rewrite Hv, Hi. split_and!.
  - intros c. by rewrite lookup_empty.
  - intros v Hin. by apply elem_of_nil in Hin.
  - intros v n Hin. rewrite Forall_forall in Ht. by apply Ht in Hin.
Qed.

(** C1, as the code has it.  Take a window after any sequence of
    operations, and an [add_view] that names its view [n].  If [n] was
    handed out before to a view of the same class, then [n] is the bare
    class name and no view of that class is tracked at that moment: a name
    with an index is never handed out twice within a class, and the class
    name is handed out again only once every view of the class is gone. *)
Theorem indexed_names_never_reused (phy_config_dir : string)
    (name config_dir : option string) (kwargs : gmap string json)
    (files : gmap string file) (connected : list (callback * option sender))
    (geometry dock_state : string) (ops : list op)
    (v : view) (position : option string) (closable floatable : bool)
    (floating : option bool) (v' : view) (n : string) (i : nat) :
  let w := run ops (GUI__init__ phy_config_dir name config_dir kwargs
                      (environment files connected geometry dock_state)).2 in
  trace w !! i = Some (SetName v' n) ->
  __class__ v' = __class__ v ->
  trace (add_view v position closable floatable floating w).2 !! length (trace w)
    = Some (SetName v n) ->
  n = __name__ (__class__ v) /\ list_views (gui w) (__class__ v) = [].
Proof.
  intros w Hold Hcls Hnew.
  assert (Hw : named w) by apply named_run, named_new_window.
  destruct (_set_view_name_named v w Hw) as [[_ Hn] | [Hnin Hn]].
  - rewrite (add_view_refused _ _ _ _ _ _ Hn) in Hnew. simpl in Hnew.
    apply lookup_lt_Some in Hnew. lia.
  - destruct (add_view_named v position closable floatable floating w Hn)
      as (_ & _ & _ & _ & (tl & Ht & _) & _).
    rewrite Ht in Hnew. rewrite list_lookup_middle in Hnew by done.
    injection Hnew as <-.
    destruct Hw as (_ & _ & H2).
    assert (Hin : SetName v' (next_name (gui w) v) ∈ trace w)
      by (by eapply list_elem_of_lookup_2).
    apply H2 in Hin. rewrite Hcls in Hin. unfold next_name in *.
    destruct (list_views (gui w) (__class__ v)) as [|v0 vs]; [done |].
    destruct Hin as [Hin | (k & Hk & Hin)].
    + by apply format_name_basename in Hin.
    + apply format_name_inj in Hin. lia.
Qed.

(** ** The closure connected to a dock *)

Lemma mapM_app {A B : Type} (f : A -> M B) (l1 l2 : list A) (w : world) :
  mapM f (l1 ++ l2) w
  = match mapM f l1 w with
    | (Ok r1, w1) =>
        match mapM f l2 w1 with
        | (Ok r2, w2) => (Ok (r1 ++ r2), w2)
        | (Raise e, w2) => (Raise e, w2)
        end
    | (Raise e, w1) => (Raise e, w1)
    end.
Proof.
  revert w. induction l1 as [|a l1 IH]; intros w; simpl.
  - unfold ret. by destruct (mapM f l2 w) as [[?|?] ?].
  - unfold bind. destruct (f a w) as [[b|e] w1]; [| done].
    rewrite IH.
    destruct (mapM f l1 w1) as [[r1|e] w2]; [| done].
    unfold ret. simpl. by destruct (mapM f l2 w2) as [[r2|e] w3].
Qed.

Lemma handlers_app (d : nat) (l1 l2 : list (callback * option sender)) :
  handlers d (l1 ++ l2) = handlers d l1 ++ handlers d l2.
Proof. apply omap_app. Qed.

Lemma handlers_cons (d : nat) (c : callback) (s : option sender)
    (l : list (callback * option sender)) :
  handlers d ((c, s) :: l)
  = match c with
    | on_close_dock_widget v =>
        if matches "close_dock_widget" (SenderDock d) (c, s)
        then v :: handlers d l
        else handlers d l
    | listener _ _ _ => handlers d l
    end.
Proof.
  destruct c as [v|ev id r]; [| done].
  unfold handlers. cbn [omap list_omap fst].
  by destruct (matches "close_dock_widget" (SenderDock d) (on_close_dock_widget v, s)).
Qed.

Lemma handlers_nil_listeners (d : nat) (l : list (callback * option sender)) :
  handlers d l = [] ->
  Forall (fun c => is_listener c = true)
         (map fst (filter (fun c => matches "close_dock_widget" (SenderDock d) c) l)).
Proof.
  induction l as [|[c s] l IH]; [done |].
  rewrite handlers_cons, filter_cons.
  destruct c as [v|ev id r].
  - destruct (matches "close_dock_widget" (SenderDock d) (on_close_dock_widget v, s));
      [done |].
    intros H. simpl. by apply IH.
  - intros H. destruct (decide _); [| by apply IH].
    simpl. constructor; [done | by apply IH].
Qed.

(** The closure of the dock splits the callbacks run by the dock's
    [close_dock_widget] into the listeners connected before it and those
    connected after it. *)
Lemma handlers_split (d : nat) (v : view) (l : list (callback * option sender)) :
  handlers d l = [v] ->
  exists before after,
    map fst (filter (fun c => matches "close_dock_widget" (SenderDock d) c) l)
    = before ++ on_close_dock_widget v :: after
    /\ Forall (fun c => is_listener c = true) before
    /\ Forall (fun c => is_listener c = true) after.
Proof.
  induction l as [|[c s] l IH]; [done |].
  rewrite handlers_cons, filter_cons.
  destruct c as [v'|ev id r].
  - destruct (matches "close_dock_widget" (SenderDock d) (on_close_dock_widget v', s)).
    + intros [= -> Hl]. simpl.
      exists [], (map fst (filter (fun c => matches "close_dock_widget" (SenderDock d) c) l)).
      split_and!; [done | done | by apply handlers_nil_listeners].
    + intros H. simpl. by apply IH.
  - intros H. destruct (IH H) as (before & after & Heq & Hb & Ha).
    destruct (decide _); [| by eauto].
    exists (listener ev id r :: before), after. simpl. rewrite Heq.
    split_and!; [done | by constructor | done].
Qed.

(** What closing a dock does when the dock's closure is the one connected
    for it and its view is tracked. *)
Lemma DockWidget_closeEvent_tracked (d : nat) (v : view) (w : world) :
  handlers d (callbacks w) = [v] ->
  v ∈ _views (gui w) ->
  exists before after l1 l2,
    selected "close_dock_widget" (SenderDock d) w
    = before ++ on_close_dock_widget v :: after
    /\ Forall (fun c => is_listener c = true) before
    /\ Forall (fun c => is_listener c = true) after
    /\ _views (gui w) = l1 ++ v :: l2
    /\ (v ∉ l1)
    /\ DockWidget_closeEvent d w
       = (Ok tt,
          set_docks (alter (setVisible false) d)
            (add_trace
               (Emit "close_dock_widget" (SenderDock d) None
                  :: called before
                  ++ Emit "close_view" SenderGUI (Some v)
                  :: called (selected "close_view" SenderGUI w)
                  ++ called after
                  ++ [NativeDockClose d])
               (set_gui (set__views (l1 ++ l2)) w))).
Proof.
  intros Hh Hv.
  destruct (handlers_split d v (callbacks w) Hh) as (before & after & Hsel & Hb & Ha).
  destruct (py_remove_elem v (_views (gui w)) Hv) as (l1 & l2 & Hl & Hl1 & Hrm).
  exists before, after, l1, l2. split_and!; try done.
  unfold DockWidget_closeEvent. unfold bind at 1.
  unfold emit, emit_with. unfold bind at 1. simpl. unfold bind at 1. simpl.
  rewrite Hsel, mapM_app. rewrite mapM_call_listeners by done.
  simpl. unfold bind at 1.
  unfold on_close_dock_widget_body at 1. unfold bind at 1. simpl.
  unfold bind at 1. unfold lift. rewrite Hrm.
  unfold bind at 1. simpl. unfold bind at 1. rewrite emit_nested_emit by done.
  rewrite emit_listeners by done. unfold bind at 1. simpl. unfold bind at 1.
  rewrite mapM_call_listeners by done. simpl.
  unfold bind. simpl. unfold set_docks, add_trace, set_gui, selected. simpl.
  repeat f_equal. rewrite <- !app_assoc. simpl. repeat f_equal.
Qed.

Lemma wired_quiet (w w' : world) : wired w -> quiet w w' -> wired w'.
Proof.
  intros [Hh Hn] (_ & Hv & Hc & Hd & _). split.
  - intros d. rewrite Hc, Hh.
    assert (H : (widget <$> docks w') !! d = (widget <$> docks w) !! d)
      by (by rewrite Hd).
    rewrite !list_lookup_fmap in H.
    destruct (docks w' !! d), (docks w !! d); simpl in H; congruence.
  - by eapply sublist_NoDup.
Qed.

Lemma handlers_closure (d n : nat) (v : view) :
  handlers d [(on_close_dock_widget v, Some (SenderDock n))]
  = if decide (d = n) then [v] else [].
Proof.
  rewrite handlers_cons. unfold matches. simpl.
  destruct (decide (d = n)) as [->|Hne].
  - by rewrite bool_decide_eq_true_2.
  - rewrite bool_decide_eq_false_2; [done |]. congruence.
Qed.

Lemma wired_add_view (v : view) (position : option string)
    (closable floatable : bool) (floating : option bool) (w : world) :
  named w -> wired w ->
  wired (add_view v position closable floatable floating w).2.
Proof.
  intros Hw [Hh Hn]. destruct (_set_view_name_named v w Hw) as [[_ Hs] | [Hnin Hs]].
  - by rewrite (add_view_refused _ _ _ _ _ _ Hs).
  - destruct (add_view_named v position closable floatable floating w Hs)
      as (Hg & _ & _ & _ & _ & Hpos).
    split.
    + intros d. destruct (_get_dock_position position) as [a|e].
      * destruct Hpos as (_ & (dk & Hd & Hdk & _) & Hc).
        rewrite Hc, Hd, handlers_app, handlers_closure, Hh.
        destruct (decide (d = length (docks w))) as [->|Hne].
        -- rewrite lookup_ge_None_2 by lia.
           rewrite lookup_app_r, Nat.sub_diag by lia. simpl. by rewrite Hdk.
        -- rewrite app_nil_r. destruct (decide (d < length (docks w))%nat).
           ++ by rewrite lookup_app_l.
           ++ rewrite !lookup_ge_None_2; [done | | lia].
              rewrite length_app. simpl. lia.
      * destruct Hpos as (_ & -> & ->). apply Hh.
    + rewrite Hg. simpl. apply NoDup_app. split_and!; [done | | apply NoDup_singleton].
      intros x Hx Hx'. apply list_elem_of_singleton in Hx' as ->. done.
Qed.

Lemma named_wired_step (o : op) (w : world) :
  named w /\ wired w -> named (step o w).2 /\ wired (step o w).2.
Proof.
  intros [Hn Hw]. split; [by apply named_step |].
  destruct o as [v p c f g | d | ev id r s]; simpl.
  - unfold bind. pose proof (wired_add_view v p c f g w Hn Hw) as H.
    by destruct (add_view v p c f g w) as [[?|?] ?].
  - unfold bind. simpl. destruct (bool_decide _); [| done].
    eapply wired_quiet; [done | apply DockWidget_closeEvent_quiet].
  - destruct Hw as [Hh Hnd]. split; [| done]. intros d. simpl.
    rewrite handlers_app, handlers_cons. simpl. rewrite app_nil_r. apply Hh.
Qed.

Lemma named_wired_run (ops : list op) (w : world) :
  named w /\ wired w -> named (run ops w) /\ wired (run ops w).
Proof.
  revert w. induction ops as [|o ops IH]; intros w Hw; [done |].
  simpl. apply IH. by apply named_wired_step.
Qed.

Lemma handlers_listeners (d : nat) (l : list (callback * option sender)) :
  forallb (fun c => is_listener c.1) l = true -> handlers d l = [].
Proof.
  induction l as [|[c s] l IH]; [done |]. simpl.
  intros [Hc Hl]%andb_prop. rewrite handlers_cons.
  destruct c; [done | by apply IH].
Qed.

(** C7: in a window reached by any sequence of operations, the close
    event of a dock whose view is tracked returns normally, removes that
    view and no other from the tracked list, the others keeping their
    order, and the trace it leaves starts with the dock's
    [close_dock_widget] emission, inside which [close_view] is emitted
    once, with the view removed, after the listeners connected before the
    window's closure and before those connected after it; the native close
    of the dock comes last. *)
Theorem close_dock_removes_view (phy_config_dir : string)
    (name config_dir : option string) (kwargs : gmap string json)
    (files : gmap string file) (connected : list (callback * option sender))
    (geometry dock_state : string) (ops : list op) (d : nat) (dk : DockWidget) :
  forallb (fun c => is_listener c.1) connected = true ->
  let w := run ops (GUI__init__ phy_config_dir name config_dir kwargs
                      (environment files connected geometry dock_state)).2 in
  docks w !! d = Some dk ->
  widget dk ∈ _views (gui w) ->
  exists before after l1 l2,
    (DockWidget_closeEvent d w).1 = Ok tt
    /\ _views (gui w) = l1 ++ widget dk :: l2
    /\ _views (gui (DockWidget_closeEvent d w).2) = l1 ++ l2
    /\ (widget dk ∉ l1 ++ l2)
    /\ selected "close_dock_widget" (SenderDock d) w
       = before ++ on_close_dock_widget (widget dk) :: after
    /\ trace (DockWidget_closeEvent d w).2
       = trace w
         ++ Emit "close_dock_widget" (SenderDock d) None
         :: called before
         ++ Emit "close_view" SenderGUI (Some (widget dk))
         :: called (selected "close_view" SenderGUI w)
         ++ called after
         ++ [NativeDockClose d].
Proof.
  intros Hconn w Hd Hv.
  destruct (GUI__init___spec phy_config_dir name config_dir kwargs files connected
              geometry dock_state) as (_ & Hv0 & _ & _ & Hc0 & Hd0 & _).
  assert (Hw : named w /\ wired w).
  { apply named_wired_run. split; [apply named_new_window |]. split.
    - intros d'. rewrite Hc0, Hd0. by apply handlers_listeners.
    - rewrite Hv0. apply NoDup_nil_2. }
  destruct Hw as [_ [Hh Hnd]].
  specialize (Hh d). rewrite Hd in Hh.
  destruct (DockWidget_closeEvent_tracked d (widget dk) w Hh Hv)
    as (before & after & l1 & l2 & Hsel & _ & _ & Hl & Hl1 & Hclose).
  exists before, after, l1, l2. rewrite Hclose. simpl.
  split_and!; try done.
  rewrite Hl in Hnd. apply NoDup_app in Hnd as (_ & Hdisj & Hnd2).
  apply NoDup_cons in Hnd2 as [Hl2 _].
  rewrite elem_of_app. intros [Hin | Hin]; [done | done].
Qed.

(** ** The properties on the session *)

Lemma status_message_locked_witness :
  _lock_status (lock_status (gui new_window)) = true
  /\ status_message
       (set_status_message (PStr "hello") (lock_status (gui new_window)))
     = status_message (lock_status (gui new_window)).
Proof.
  split; [reflexivity |].
  apply (status_message_locked (lock_status (gui new_window))
           (PStr "hello") (PStr "bye")).
  reflexivity.
Defined.

Lemma get_view_negative_index_witness :
  exists v, list_views (gui two_views) Foo !! 1%nat = Some v
            /\ get_view (gui two_views) Foo (-1) = Ok (Some v).
Proof.
  apply (get_view_negative_index (gui two_views) Foo (-1)).
  - vm_compute. discriminate.
  - vm_compute. split; discriminate.
Defined.

(** C1 as stated does not hold: the first view is named ["Foo"], its dock
    is closed, and the next view of the class, a different view, is named
    ["Foo"] again. *)
Lemma name_reused_after_removal :
  trace reopened !! 1%nat = Some (SetName foo1 "Foo")
  /\ trace (add_view foo2 None true true None reopened).2 !! length (trace reopened)
     = Some (SetName foo2 "Foo")
  /\ foo1 <> foo2
  /\ _views (gui reopened) = [].
Proof. split_and!; [vm_compute; reflexivity | vm_compute; reflexivity | discriminate | vm_compute; reflexivity]. Qed.

Lemma indexed_names_never_reused_witness :
  "Foo" = __name__ (__class__ foo2)
  /\ list_views (gui reopened) (__class__ foo2) = [].
Proof.
  apply (indexed_names_never_reused "/home/user/.phy" None None ∅ ∅ []
           "geometry" "state" [AddView foo1 None true true None; CloseDock 0]
           foo2 None true true None foo1 "Foo" 1%nat);
    vm_compute; reflexivity.
Defined.

(** C2 as stated does not hold: [None] is false-like, and a [close]
    listener returning it does not stop the window from closing and
    saving its state. *)
Lemma falsy_listener_does_not_veto :
  _closed (gui listening) = false
  /\ returned (selected "close" SenderGUI listening) = [PNone]
  /\ truthy PNone = false
  /\ (closeEvent listening).1 = Ok true
  /\ _closed (gui (closeEvent listening).2) = true
  /\ SaveGeometry ∈ trace (closeEvent listening).2
  /\ SaveJson "/home/user/.phy/GUI/state.json" ∈ trace (closeEvent listening).2.
Proof.
  split_and!; try (vm_compute; reflexivity).
  - apply list_elem_of_In. vm_compute. tauto.
  - apply list_elem_of_In. vm_compute. tauto.
Qed.

Lemma closeEvent_veto_witness :
  _closed (gui vetoing) = false
  /\ (closeEvent vetoing).1 = Ok false
  /\ (close vetoing).2 = (closeEvent vetoing).2.
Proof.
  assert (Hc : _closed (gui vetoing) = false) by (vm_compute; reflexivity).
  split; [exact Hc |].
  destruct (closeEvent_veto vetoing Hc) as [_ H].
  assert (Hb : py_in (PBool false) (returned (selected "close" SenderGUI vetoing)) = true)
    by (vm_compute; reflexivity).
  rewrite Hb in H. destruct H as [H1 H2]. by rewrite H1, H2.
Defined.

Lemma closeEvent_idempotent_witness :
  closeEvent new_window = (Ok true, (closeEvent new_window).2)
  /\ closeEvent (closeEvent new_window).2 = (Ok true, (closeEvent new_window).2).
Proof.
  assert (H : closeEvent new_window = (Ok true, (closeEvent new_window).2)).
  { assert (H1 : (closeEvent new_window).1 = Ok true) by (vm_compute; reflexivity).
    rewrite <- H1. by destruct (closeEvent new_window). }
  split; [exact H |].
  exact (closeEvent_idempotent new_window (closeEvent new_window).2 H).
Defined.

Lemma add_view_names_witness :
  let w1 := (add_view foo1 None true true None new_window).2 in
  let w2 := (add_view foo2 (Some "nowhere") true true None w1).2 in
  let w3 := (add_view foo3 (Some "top") false true (Some true) w2).2 in
  view_name w1 !! foo1 = Some "Foo"
  /\ view_name w2 !! foo2 = Some "Foo (1)"
  /\ view_name w3 !! foo3 = Some "Foo (2)"
  /\ view_name w3 !! foo1 = Some "Foo"
  /\ view_name w3 !! foo2 = Some "Foo (1)"
  /\ list_views (gui w3) Foo = [foo1; foo2; foo3].
Proof.
  refine (add_view_names new_window Foo foo1 foo2 foo3
           None (Some "nowhere") (Some "top") true true true true false true
           None None (Some true) _ _ _ _ _ _ _ _);
    try (vm_compute; reflexivity); discriminate.
Defined.

Lemma load_bad_file_witness :
  exists lg, load some_state broken_disk = (Ok some_state, add_trace lg broken_disk)
             /\ Forall (fun e => exists level msg, e = Log level msg) lg
             /\ (fs broken_disk !! "/home/user/.phy/GUI/state.json" <> None ->
                 Log "warning" "Error decoding JSON: %s" ∈ lg).
Proof.
  apply (load_bad_file some_state broken_disk "/home/user/.phy/GUI/state.json").
  - vm_compute. reflexivity.
  - right. exists "{". vm_compute. reflexivity.
Defined.

Lemma save_load_roundtrip_witness :
  exists p w1 s' w2,
    save some_state new_window = (Ok tt, w1)
    /\ path some_state = Ok p
    /\ fs w1 !! p
       = Some (Document (filter (fun kv => kv.1 ∉ ["config_dir"; "name"]) some_state))
    /\ GUIState__init__ "/etc/phy" "GUI" (Some "/home/user/.phy") ∅ w1 = (Ok s', w2)
    /\ (forall k, k <> "config_dir" -> k <> "name" -> s' !! k = some_state !! k)
    /\ s' = some_state.
Proof.
  apply (save_load_roundtrip "/etc/phy" some_state new_window "GUI" "/home/user/.phy").
  - vm_compute. reflexivity.
  - vm_compute. reflexivity.
  - discriminate.
Defined.

Lemma close_dock_removes_view_witness :
  exists before after l1 l2,
    (DockWidget_closeEvent 0 two_views).1 = Ok tt
    /\ _views (gui two_views) = l1 ++ foo1 :: l2
    /\ _views (gui (DockWidget_closeEvent 0 two_views).2) = l1 ++ l2
    /\ (foo1 ∉ l1 ++ l2)
    /\ selected "close_dock_widget" (SenderDock 0) two_views
       = before ++ on_close_dock_widget foo1 :: after
    /\ trace (DockWidget_closeEvent 0 two_views).2
       = trace two_views
         ++ Emit "close_dock_widget" (SenderDock 0) None
         :: called before
         ++ Emit "close_view" SenderGUI (Some foo1)
         :: called (selected "close_view" SenderGUI two_views)
         ++ called after
         ++ [NativeDockClose 0].
Proof.
  refine (close_dock_removes_view "/home/user/.phy" None None ∅ ∅ []
            "geometry" "state"
            [AddView foo1 None true true None;
             AddView foo2 (Some "left") true false (Some true);
             Connect "close_dock_widget" 10 PNone (Some (SenderDock 0));
             Connect "close_view" 11 PNone (Some SenderGUI)]
            0%nat
            {| objectName := "Foo"; widget := foo1; DockWidgetClosable := true;
               DockWidgetFloatable := true; dock_area := Some RightDockWidgetArea;
               isFloating := false; isVisible := true |} _ _ _).
  - vm_compute. reflexivity.
  - vm_compute. reflexivity.
  - apply list_elem_of_In. vm_compute. tauto.
Defined.

(** The order the tests of the window observe: a listener connected to the
    dock after [add_view] hears of the close after the [close_view]
    listeners. *)
Example close_dock_trace :
  drop (length (trace two_views)) (trace (DockWidget_closeEvent 0 two_views).2)
  = [Emit "close_dock_widget" (SenderDock 0) None;
     Emit "close_view" SenderGUI (Some foo1);
     Called 11; Called 10; NativeDockClose 0].
Proof. vm_compute. reflexivity. Qed.

(** * Further properties *)

(** ** Looking views up, continued *)

(** X1: [get_view] in full.  With [n] tracked views of the class, an index
    [i >= n] gives [None], an index [i < -n] raises [IndexError] (also
    when [n = 0]), and any other index gives the view at position [i], or
    [n + i] for a negative [i], among the tracked views of the class. *)
Theorem get_view_cases (g : GUI) (cls : pyclass) (i : Z) :
  let n := Z.of_nat (length (list_views g cls)) in
  (n <= i -> get_view g cls i = Ok None)
  /\ (i < - n -> get_view g cls i = Raise IndexError)
  /\ (- n <= i < n ->
      exists v, list_views g cls !! Z.to_nat (if i <? 0 then n + i else i) = Some v
                /\ get_view g cls i = Ok (Some v)).
Proof.
  intros n. subst n. split_and!.
  - intros Hi. by apply get_view_None.
  - intros Hi. unfold get_view.
    destruct (Z.leb_spec i (Z.of_nat (length (list_views g cls)) - 1)); [| lia].
    by rewrite py_getitem_below.
  - intros Hi. unfold get_view.
    destruct (Z.leb_spec i (Z.of_nat (length (list_views g cls)) - 1)); [| lia].
    destruct (Z.ltb_spec i 0).
    + destruct (py_getitem_negative (list_views g cls) i) as (x & Hx & ->); [lia |].
      by exists x.
    + destruct (py_getitem_nonneg (list_views g cls) i) as (x & Hx & ->); [lia |].
      by exists x.
Qed.

Lemma view_count_lookup (g : GUI) (cls : pyclass) :
  view_count g !! cls
  = match list_views g cls with
    | [] => None
    | vs => Some (Z.of_nat (length vs))
    end.
Proof.
  unfold view_count, list_views, views.
  pose proof (foldl_incr_lookup (_views g) ∅ cls) as H. simpl in H. rewrite H.
  rewrite lookup_empty. by destruct (filter _ (_views g)).
Qed.

Lemma get_view_head (g : GUI) (cls : pyclass) :
  get_view g cls 0 = Ok (head (list_views g cls)).
Proof.
  unfold get_view. destruct (list_views g cls) as [|v l] eqn:Hl; [done |].
  destruct (Z.leb_spec 0 (Z.of_nat (length (v :: l)) - 1)) as [_|H];
    [| simpl in H; lia].
  destruct (py_getitem_nonneg (v :: l) 0) as (x & Hx & ->); [simpl; lia |].
  simpl in Hx. by injection Hx as ->.
Qed.

Lemma head_filter {A : Type} (P : A -> Prop) `{forall x, Decision (P x)}
    (l : list A) (x : A) :
  head (filter P l) = Some x
  <-> exists l1 l2, l = l1 ++ x :: l2 /\ P x /\ Forall (fun y => ~ P y) l1.
Proof.
  induction l as [|a l IH].
  - split; [done |]. intros (l1 & l2 & Heq & _). by destruct l1.
  - rewrite filter_cons. destruct (decide (P a)) as [Ha | Ha].
    + simpl. split.
      * intros [= <-]. exists [], l. done.
      * intros (l1 & l2 & Heq & Hx & Hl1). destruct l1 as [|b l1].
        -- by injection Heq as ->.
        -- injection Heq as -> _. by apply Forall_cons in Hl1 as [? _].
    + rewrite IH. split.
      * intros (l1 & l2 & -> & Hx & Hl1). exists (a :: l1), l2.
        split_and!; [done | done | by constructor].
      * intros (l1 & l2 & Heq & Hx & Hl1). destruct l1 as [|b l1].
        -- by injection Heq as ->.
        -- injection Heq as -> ->. apply Forall_cons in Hl1 as [_ Hl1]. eauto.
Qed.

(** X2: [get_view(cls)] with the default index is [None] exactly when
    [view_count] has no entry for the class, and is otherwise the first
    tracked view of the class. *)
Theorem get_view_default (g : GUI) (cls : pyclass) :
  (get_view g cls 0 = Ok None <-> view_count g !! cls = None)
  /\ (forall v, get_view g cls 0 = Ok (Some v) <->
                exists l1 l2, _views g = l1 ++ v :: l2
                              /\ __class__ v = cls
                              /\ Forall (fun v' => __class__ v' <> cls) l1).
Proof.
  assert (Hcount : view_count g !! cls = None <-> list_views g cls = []).
  { rewrite view_count_lookup. by destruct (list_views g cls). }
  rewrite get_view_head. split.
  - rewrite Hcount. destruct (list_views g cls); split; done.
  - intros v. unfold list_views.
    etrans; [| apply (head_filter (fun v0 => __class__ v0 = cls) (_views g) v)].
    split; congruence.
Qed.

(** ** Adding a view, continued *)

Lemma _get_dock_position_cases (position : option string) :
  match _get_dock_position position with
  | Ok a =>
      (a = RightDockWidgetArea
       /\ (position = None \/ position = Some "" \/ position = Some "right"))
      \/ (a = LeftDockWidgetArea /\ position = Some "left")
      \/ (a = TopDockWidgetArea /\ position = Some "top")
      \/ (a = BottomDockWidgetArea /\ position = Some "bottom")
  | Raise e =>
      e = KeyError
      /\ exists p, position = Some p
                   /\ p ∉ [""; "left"; "right"; "top"; "bottom"]
  end.
Proof.
  unfold _get_dock_position. destruct position as [p|]; [| simpl; tauto].
  destruct (String.eqb_spec p "") as [-> | H0]; [simpl; tauto |].
  destruct (String.eqb_spec p "left") as [-> | H1]; [tauto |].
  destruct (String.eqb_spec p "right") as [-> | H2]; [tauto |].
  destruct (String.eqb_spec p "top") as [-> | H3]; [tauto |].
  destruct (String.eqb_spec p "bottom") as [-> | H4]; [tauto |].
  split; [done |]. exists p. split; [done |].
  rewrite !not_elem_of_cons. split_and!; try done. apply not_elem_of_nil.
Qed.


Section Reachable.

Variables (phy_config_dir : string) (name config_dir : option string)
  (kwargs : gmap string json) (files : gmap string file)
  (connected : list (callback * option sender)) (geometry dock_state : string)
  (ops : list op).

Let w : world :=
  run ops (GUI__init__ phy_config_dir name config_dir kwargs
             (environment files connected geometry dock_state)).2.

Lemma reachable_named : named w.
Proof. apply named_run, named_new_window. Qed.

(** X3: in a window reached by any sequence of operations, [add_view]
    raises [AssertionError] exactly when the view is already tracked, and
    then changes nothing; on a view that is not tracked its assertions
    hold (the index is always at least 1 when the class has a tracked
    view) and the view is tracked afterwards, whether or not the call goes
    on to raise [KeyError]. *)
Theorem add_view_assertion (v : view) (position : option string)
    (closable floatable : bool) (floating : option bool) :
  (v ∈ _views (gui w) <->
   (add_view v position closable floatable floating w).1 = Raise AssertionError)
  /\ ((add_view v position closable floatable floating w).1 = Raise AssertionError ->
      (add_view v position closable floatable floating w).2 = w)
  /\ ((v ∉ _views (gui w)) ->
      _views (gui (add_view v position closable floatable floating w).2)
      = _views (gui w) ++ [v]).
Proof.
  destruct (_set_view_name_named v w reachable_named) as [[Hin Hn] | [Hnin Hn]].
  - rewrite (add_view_refused _ _ _ _ _ _ Hn). simpl. split_and!; done.
  - destruct (add_view_named v position closable floatable floating w Hn)
      as (Hg & _ & _ & _ & _ & Hpos).
    assert (Hne : (add_view v position closable floatable floating w).1
                  <> Raise AssertionError).
    { pose proof (_get_dock_position_cases position) as Hcases.
      destruct (_get_dock_position position) as [a|e].
      - destruct Hpos as (-> & _). done.
      - destruct Hpos as (-> & _). destruct Hcases as [-> _]. done. }
    split_and!; [done | done |]. intros _. by rewrite Hg.
Qed.

(** X4: a position other than [None], the empty string, ["left"],
    ["right"], ["top"] and ["bottom"] makes [add_view] raise [KeyError]
    after the view was named, tracked and counted: the view stays in the
    tracked list without a dock widget, no closure is connected for it and
    no [add_view] event is emitted. *)
Theorem add_view_unknown_position (v : view) (p : string)
    (closable floatable : bool) (floating : option bool) :
  v ∉ _views (gui w) ->
  p ∉ [""; "left"; "right"; "top"; "bottom"] ->
  let r := add_view v (Some p) closable floatable floating w in
  r.1 = Raise KeyError
  /\ gui r.2 = added v (gui w)
  /\ view_name r.2 !! v = Some (next_name (gui w) v)
  /\ docks r.2 = docks w
  /\ callbacks r.2 = callbacks w
  /\ trace r.2 = trace w ++ [SetName v (next_name (gui w) v)].
Proof.
  intros Hnin Hp r. subst r.
  destruct (_set_view_name_named v w reachable_named) as [[Hin _] | [_ Hn]];
    [done |].
  assert (Hpos : _get_dock_position (Some p) = Raise KeyError).
  { pose proof (_get_dock_position_cases (Some p)) as Hcases.
    destruct (_get_dock_position (Some p)) as [a|e].
    - exfalso. apply Hp.
      destruct Hcases as [[_ [? | [[= <-] | [= <-]]]] | [[_ [= <-]] | [[_ [= <-]] | [_ [= <-]]]]];
        [done | set_solver..].
    - by destruct Hcases as [-> _]. }
  unfold add_view. rewrite (bind_ok _ _ _ _ _ Hn).
  rewrite !bind_modify, bind_lift, Hpos. cbn -[next_name added].
  split_and!; try done. by rewrite lookup_insert_eq.
Qed.


End Reachable.

(** ** Counters and names during a session *)

Lemma silent_refl (w : world) : silent w w.
Proof. done. Qed.

Lemma silent_trans (w1 w2 w3 : world) : silent w1 w2 -> silent w2 w3 -> silent w1 w3.
Proof. intros (? & ? & ?) (? & ? & ?). unfold silent. split_and!; congruence. Qed.

Lemma on_close_dock_widget_body_silent (v : view) (w : world) :
  silent w (on_close_dock_widget_body v w).2.
Proof.
  unfold on_close_dock_widget_body. unfold bind at 1. simpl.
  unfold bind at 1. unfold lift.
  destruct (py_remove v (_views (gui w))) as [l|e]; [| done].
  unfold bind at 1. simpl. unfold bind at 1.
  unfold emit_nested, emit_with. unfold bind at 1. simpl. unfold bind at 1. simpl.
  by rewrite mapM_call_nested.
Qed.

Lemma call_silent (c : callback) (w : world) : silent w (call c w).2.
Proof.
  destruct c as [v|ev id r]; [apply on_close_dock_widget_body_silent | done].
Qed.

Lemma mapM_call_silent (l : list callback) (w : world) : silent w (mapM call l w).2.
Proof.
  revert w. induction l as [|c l IH]; intros w; [done |].
  simpl. unfold bind at 1.
  pose proof (call_silent c w) as Hc.
  destruct (call c w) as [[r|e] w1]; [| done].
  simpl in Hc. unfold bind at 1.
  pose proof (IH w1) as Hl.
  destruct (mapM call l w1) as [[rs|e] w2]; simpl in *; by eapply silent_trans.
Qed.

Lemma DockWidget_closeEvent_silent (d : nat) (w : world) :
  silent w (DockWidget_closeEvent d w).2.
Proof.
  unfold DockWidget_closeEvent. unfold bind at 1.
  unfold emit, emit_with. unfold bind at 1. simpl. unfold bind at 1. simpl.
  pose proof (mapM_call_silent
                (map fst (filter (fun c => matches "close_dock_widget" (SenderDock d) c)
                            (callbacks w)))
                (add_trace [Emit "close_dock_widget" (SenderDock d) None] w)) as He.
  destruct (mapM call _ _) as [[r|e] w1]; [| done]. simpl in He.
  unfold bind. simpl. done.
Qed.

Lemma filter_names_class_quiet (c : pyclass) (tl : list effect) :
  Forall (fun e => is_SetName e = false) tl ->
  filter (fun e => names_class c e) tl = [].
Proof.
  induction 1 as [|e tl He _ IH]; [done |].
  rewrite filter_cons, IH. by destruct e.
Qed.

Lemma sublist_filter_length {A : Type} (P : A -> Prop) `{forall x, Decision (P x)}
    (l1 l2 : list A) :
  sublist l1 l2 -> (length (filter P l1) <= length (filter P l2))%nat.
Proof.
  induction 1 as [|x l1 l2 _ IH|x l1 l2 _ IH]; [done | |];
    rewrite !filter_cons; destruct (decide (P x)); simpl; lia.
Qed.

Lemma counted_quiet (w w' : world) : counted w -> quiet w w' -> counted w'.
Proof.
  intros Hw (Hi & Hv & _ & _ & tl & Ht & Hs) c.
  destruct (Hw c) as [Hc Hl].
  assert (Hcnt : counter (gui w') c = counter (gui w) c).
  { unfold counter. by rewrite Hi. }
  rewrite Hcnt, Ht, filter_app, (filter_names_class_quiet c tl Hs), app_nil_r.
  split; [done |].
  pose proof (sublist_filter_length (fun v => __class__ v = c) _ _ Hv) as Hlen.
  unfold list_views in *. lia.
Qed.

(** What [_set_view_name] does, in any world. *)
Lemma _set_view_name_cases (v : view) (w : world) :
  _set_view_name v w = (Raise AssertionError, w)
  \/ ((v ∉ _views (gui w))
      /\ _set_view_name v w
         = (Ok (next_name (gui w) v),
            add_trace [SetName v (next_name (gui w) v)]
              (set_view_name (insert v (next_name (gui w) v)) w))).
Proof.
  destruct (decide (v ∈ _views (gui w))) as [Hin | Hnin].
  - left. by apply _set_view_name_tracked.
  - destruct (decide (list_views (gui w) (__class__ v) = [])) as [Hl | Hl].
    + right. split; [done |]. apply _set_view_name_ok; [done |]. by rewrite Hl.
    + destruct (Z_lt_le_dec (counter (gui w) (__class__ v)) 1) as [Hlt | Hle].
      * left. by apply _set_view_name_index.
      * right. split; [done |]. by apply _set_view_name_ok.
Qed.

Lemma counted_add_view (v : view) (position : option string)
    (closable floatable : bool) (floating : option bool) (w : world) :
  counted w -> counted (add_view v position closable floatable floating w).2.
Proof.
  intros Hw. destruct (_set_view_name_cases v w) as [Hn | [Hnin Hn]].
  - by rewrite (add_view_refused _ _ _ _ _ _ Hn).
  - destruct (add_view_named v position closable floatable floating w Hn)
      as (Hg & _ & _ & _ & (tl & Ht & Hs) & _).
    intros c. destruct (Hw c) as [Hc Hl].
    rewrite Hg, counter_added, list_views_added, Ht, filter_app, filter_cons,
      (filter_names_class_quiet c tl Hs).
    simpl. destruct (decide (__class__ v = c)) as [Heq | Hne].
    + rewrite bool_decide_eq_true_2 by done. simpl.
      rewrite !length_app. simpl. split; lia.
    + rewrite bool_decide_eq_false_2 by done. simpl.
      rewrite !app_nil_r. done.
Qed.

Lemma counted_step (o : op) (w : world) : counted w -> counted (step o w).2.
Proof.
  intros Hw. destruct o as [v p c f g | d | ev id r s]; simpl.
  - unfold bind. pose proof (counted_add_view v p c f g w Hw) as H.
    by destruct (add_view v p c f g w) as [[?|?] ?].
  - unfold bind. simpl. destruct (bool_decide _); [| done].
    eapply counted_quiet; [done | apply DockWidget_closeEvent_quiet].
  - done.
Qed.

Lemma counted_run (ops : list op) (w : world) : counted w -> counted (run ops w).
Proof.
  revert w. induction ops as [|o ops IH]; intros w Hw; [done |].
  simpl. apply IH. by apply counted_step.
Qed.

Lemma counter_step (o : op) (w : world) (c : pyclass) :
  counter (gui w) c <= counter (gui (step o w).2) c.
Proof.
  destruct o as [v p cl f g | d | ev id r s]; simpl.
  - unfold bind.
    assert (H : counter (gui w) c <= counter (gui (add_view v p cl f g w).2) c).
    { destruct (_set_view_name_cases v w) as [Hn | [Hnin Hn]].
      - by rewrite (add_view_refused _ _ _ _ _ _ Hn).
      - destruct (add_view_named v p cl f g w Hn) as (Hg & _).
        rewrite Hg, counter_added. destruct (decide _); lia. }
    by destruct (add_view v p cl f g w) as [[?|?] ?].
  - unfold bind. simpl. destruct (bool_decide _); [| done].
    destruct (DockWidget_closeEvent_quiet d w) as (Hi & _).
    unfold counter. by rewrite Hi.
  - done.
Qed.

Lemma labelled_quiet (w w' : world) :
  labelled w -> quiet w w' -> silent w w' -> labelled w'.
Proof.
  intros [H1 H2] (Hi & Hv & _) (Hn & _).
  assert (Hc : forall c, counter (gui w') c = counter (gui w) c).
  { intros c. unfold counter. by rewrite Hi. }
  split.
  - intros v Hin. rewrite Hn, Hc. apply H1. by eapply elem_of_sublist.
  - intros v1 v2 Hin1 Hin2. rewrite Hn. apply H2; by eapply elem_of_sublist.
Qed.

Lemma labelled_add_view (v : view) (position : option string)
    (closable floatable : bool) (floating : option bool) (w : world) :
  named w -> labelled w ->
  labelled (add_view v position closable floatable floating w).2.
Proof.
  intros Hw [H1 H2]. destruct (_set_view_name_named v w Hw) as [[_ Hn] | [Hnin Hn]].
  - by rewrite (add_view_refused _ _ _ _ _ _ Hn).
  - destruct (add_view_named v position closable floatable floating w Hn)
      as (Hg & Hh & _).
    destruct Hw as (H0 & Hone & _).
    assert (Hc : forall c, counter (gui w) c
                           <= counter (gui (add_view v position closable floatable
                                              floating w).2) c).
    { intros c. rewrite Hg, counter_added. destruct (decide _); lia. }
    assert (Hnew : next_name (gui w) v = __name__ (__class__ v)
                   /\ list_views (gui w) (__class__ v) = []
                   \/ next_name (gui w) v
                      = format_name (__name__ (__class__ v)) (counter (gui w) (__class__ v))
                      /\ 1 <= counter (gui w) (__class__ v)).
    { unfold next_name.
      destruct (list_views (gui w) (__class__ v)) as [|v0 vs] eqn:Hl; [by left |].
      right. split; [done |].
      assert (list_views (gui w) (__class__ v) <> []) as Hne by (by rewrite Hl).
      apply list_views_tracked in Hne as (v1 & Hv1 & Hcls).
      rewrite <- Hcls. by apply Hone. }
    assert (Hold : forall v', v' ∈ _views (gui w) ->
              view_name (add_view v position closable floatable floating w).2 !! v'
              = view_name w !! v').
    { intros v' Hin. rewrite Hh, lookup_insert_ne; [done |]. by intros ->. }
    assert (Hself : view_name (add_view v position closable floatable floating w).2 !! v
                    = Some (next_name (gui w) v)).
    { by rewrite Hh, lookup_insert_eq. }
    split.
    + intros v'. rewrite Hg at 1. simpl. rewrite elem_of_app, list_elem_of_singleton.
      intros [Hin | ->].
      * rewrite (Hold v' Hin). destruct (H1 v' Hin) as (n & Hn' & Hform).
        exists n. split; [done |]. destruct Hform as [-> | (k & Hk & ->)]; [by left |].
        right. exists k. split; [| done]. specialize (Hc (__class__ v')). lia.
      * exists (next_name (gui w) v). split; [done |].
        destruct Hnew as [[-> _] | [-> Hge]]; [by left |].
        right. exists (counter (gui w) (__class__ v)). split; [| done].
        rewrite Hg, counter_added, decide_True by done. lia.
    + assert (Hdiff : forall v', v' ∈ _views (gui w) -> __class__ v' = __class__ v ->
                view_name w !! v' <> Some (next_name (gui w) v)).
      { intros v' Hin Hcls Heq. destruct (H1 v' Hin) as (n & Hn' & Hform).
        rewrite Hn' in Heq. injection Heq as ->.
        destruct Hnew as [[_ Hl] | [Hfmt Hge]].
        - apply (list_views_nil (gui w) v'); [| done]. by rewrite Hcls.
        - rewrite Hcls in Hform. rewrite Hfmt in Hform.
          destruct Hform as [Hb | (k & Hk & Hf)].
          + by apply format_name_basename in Hb.
          + apply format_name_inj in Hf. lia. }
      intros v1 v2. rewrite Hg at 1 2. simpl.
      rewrite !elem_of_app, !list_elem_of_singleton.
      intros [Hin1 | ->] [Hin2 | ->] Hcls; try done.
      * rewrite (Hold v1 Hin1), (Hold v2 Hin2). by apply H2.
      * rewrite (Hold v1 Hin1), Hself. intros Heq. by apply Hdiff in Heq.
      * rewrite (Hold v2 Hin2), Hself. intros Heq. symmetry in Heq.
        by apply Hdiff in Heq.
Qed.

Lemma named_labelled_step (o : op) (w : world) :
  named w /\ labelled w -> named (step o w).2 /\ labelled (step o w).2.
Proof.
  intros [Hn Hw]. split; [by apply named_step |].
  destruct o as [v p c f g | d | ev id r s]; simpl.
  - unfold bind. pose proof (labelled_add_view v p c f g w Hn Hw) as H.
    by destruct (add_view v p c f g w) as [[?|?] ?].
  - unfold bind. simpl. destruct (bool_decide _); [| done].
    eapply labelled_quiet;
      [done | apply DockWidget_closeEvent_quiet | apply DockWidget_closeEvent_silent].
  - done.
Qed.

Lemma named_labelled_run (ops : list op) (w : world) :
  named w /\ labelled w -> named (run ops w) /\ labelled (run ops w).
Proof.
  revert w. induction ops as [|o ops IH]; intros w Hw; [done |].
  simpl. apply IH. by apply named_labelled_step.
Qed.

Lemma NoDup_step (o : op) (w : world) :
  NoDup (_views (gui w)) -> NoDup (_views (gui (step o w).2)).
Proof.
  intros Hw. destruct o as [v p c f g | d | ev id r s]; simpl.
  - unfold bind.
    assert (H : NoDup (_views (gui (add_view v p c f g w).2))).
    { destruct (_set_view_name_cases v w) as [Hn | [Hnin Hn]].
      - by rewrite (add_view_refused _ _ _ _ _ _ Hn).
      - destruct (add_view_named v p c f g w Hn) as (Hg & _).
        rewrite Hg. simpl. apply NoDup_app. split_and!; [done | | apply NoDup_singleton].
        intros x Hx Hx'. apply list_elem_of_singleton in Hx' as ->. done. }
    by destruct (add_view v p c f g w) as [[?|?] ?].
  - unfold bind. simpl. destruct (bool_decide _); [| done].
    destruct (DockWidget_closeEvent_quiet d w) as (_ & Hv & _).
    by eapply sublist_NoDup.
  - done.
Qed.

Lemma NoDup_run (ops : list op) (w : world) :
  NoDup (_views (gui w)) -> NoDup (_views (gui (run ops w))).
Proof.
  revert w. induction ops as [|o ops IH]; intros w Hw; [done |].
  simpl. apply IH. by apply NoDup_step.
Qed.

(** X7: the counter of a class never goes down, whatever the window goes
    through. *)
Theorem counter_never_decreases (w : world) (ops : list op) (c : pyclass) :
  counter (gui w) c <= counter (gui (run ops w)) c.
Proof.
  revert w. induction ops as [|o ops IH]; intros w; [done |].
  simpl. etrans; [apply (counter_step o) | apply IH].
Qed.

Section Session.

Variables (phy_config_dir : string) (name config_dir : option string)
  (kwargs : gmap string json) (files : gmap string file)
  (connected : list (callback * option sender)) (geometry dock_state : string)
  (ops : list op).

Let w : world :=
  run ops (GUI__init__ phy_config_dir name config_dir kwargs
             (environment files connected geometry dock_state)).2.

(** X6: after any sequence of operations on a new window, the counter of
    a class is the number of times a view of that class was given a name,
    and at least the number of views of the class now tracked. *)
Theorem counter_counts_names (c : pyclass) :
  counter (gui w) c
  = Z.of_nat (length (filter (fun e => names_class c e) (trace w)))
  /\ Z.of_nat (length (list_views (gui w) c)) <= counter (gui w) c.
Proof.
  apply counted_run. intros c'.
  destruct (GUI__init___spec phy_config_dir name config_dir kwargs files connected
              geometry dock_state) as (_ & Hv & Hi & _ & _ & _ & Ht).
  unfold counter, list_views. rewrite Hv, Hi, lookup_empty.
  by rewrite (filter_names_class_quiet c' _ Ht).
Qed.

(** X8: after any sequence of operations on a new window, no view is
    tracked twice, every tracked view has a name, and two different
    tracked views of the same class have different names. *)
Theorem tracked_names_distinct :
  NoDup (_views (gui w))
  /\ (forall v, v ∈ _views (gui w) -> is_Some (view_name w !! v))
  /\ (forall v1 v2, v1 ∈ _views (gui w) -> v2 ∈ _views (gui w) ->
        __class__ v1 = __class__ v2 -> v1 <> v2 ->
        view_name w !! v1 <> view_name w !! v2).
Proof.
  destruct (GUI__init___spec phy_config_dir name config_dir kwargs files connected
              geometry dock_state) as (_ & Hv & _).
  assert (Hw : named w /\ labelled w).
  { apply named_labelled_run. split; [apply named_new_window |].
    split; rewrite Hv.
    - intros v Hin. by apply elem_of_nil in Hin.
    - intros v1 v2 Hin. by apply elem_of_nil in Hin. }
  destruct Hw as [_ [H1 H2]]. split_and!.
  - apply NoDup_run. rewrite Hv. apply NoDup_nil_2.
  - intros v Hin. destruct (H1 v Hin) as (n & -> & _). by eexists.
  - intros v1 v2 Hin1 Hin2 Hcls Hne Heq. apply Hne. by apply H2.
Qed.

End Session.

(** ** Closing a dock whose view is gone *)

Lemma py_remove_not_elem {A : Type} `{EqDecision A} (x : A) (l : list A) :
  x ∉ l -> py_remove x l = Raise ValueError.
Proof.
  induction l as [|y l IH]; [done |].
  rewrite not_elem_of_cons. intros [Hne Hl]. simpl.
  rewrite decide_False by congruence. by rewrite IH.
Qed.

Lemma DockWidget_closeEvent_untracked (d : nat) (v : view) (w : world) :
  handlers d (callbacks w) = [v] ->
  v ∉ _views (gui w) ->
  exists before after,
    selected "close_dock_widget" (SenderDock d) w
    = before ++ on_close_dock_widget v :: after
    /\ Forall (fun c => is_listener c = true) before
    /\ DockWidget_closeEvent d w
       = (Raise ValueError,
          add_trace (Emit "close_dock_widget" (SenderDock d) None :: called before) w).
Proof.
  intros Hh Hv.
  destruct (handlers_split d v (callbacks w) Hh) as (before & after & Hsel & Hb & Ha).
  exists before, after. split_and!; try done.
  unfold DockWidget_closeEvent. unfold bind at 1.
  unfold emit, emit_with. unfold bind at 1. simpl. unfold bind at 1. simpl.
  rewrite Hsel, mapM_app. rewrite mapM_call_listeners by done.
  simpl. unfold bind at 1.
  unfold on_close_dock_widget_body at 1. unfold bind at 1. simpl.
  unfold bind at 1. unfold lift. rewrite (py_remove_not_elem _ _ Hv).
  by rewrite add_trace_add_trace.
Qed.

Section Docks.

Variables (phy_config_dir : string) (name config_dir : option string)
  (kwargs : gmap string json) (files : gmap string file)
  (connected : list (callback * option sender)) (geometry dock_state : string)
  (ops : list op).

Let w : world :=
  run ops (GUI__init__ phy_config_dir name config_dir kwargs
             (environment files connected geometry dock_state)).2.

(** X9: the close event of a dock whose view is no longer tracked (the
    dock was closed before and the view not added again) raises
    [ValueError] from the window's closure: only the listeners connected
    to the dock before the closure have run, no [close_view] is emitted,
    the native close of the dock is not reached, and the window is as it
    was apart from the trace. *)
Theorem close_dock_twice (d : nat) (dk : DockWidget) :
  forallb (fun c => is_listener c.1) connected = true ->
  docks w !! d = Some dk ->
  widget dk ∉ _views (gui w) ->
  exists before after,
    selected "close_dock_widget" (SenderDock d) w
    = before ++ on_close_dock_widget (widget dk) :: after
    /\ DockWidget_closeEvent d w
       = (Raise ValueError,
          add_trace (Emit "close_dock_widget" (SenderDock d) None :: called before) w).
Proof.
  intros Hconn Hd Hv.
  destruct (GUI__init___spec phy_config_dir name config_dir kwargs files connected
              geometry dock_state) as (_ & Hv0 & _ & _ & Hc0 & Hd0 & _).
  assert (Hw : named w /\ wired w).
  { apply named_wired_run. split; [apply named_new_window |]. split.
    - intros d'. rewrite Hc0, Hd0. by apply handlers_listeners.
    - rewrite Hv0. apply NoDup_nil_2. }
  destruct Hw as [_ [Hh _]]. specialize (Hh d). rewrite Hd in Hh.
  destruct (DockWidget_closeEvent_untracked d (widget dk) w Hh Hv)
    as (before & after & Hsel & _ & Hclose).
  by exists before, after.
Qed.

End Docks.

(** ** Closing the window, continued *)

(** X10: [closeEvent] marks the window closed before it saves the state.
    When the save raises (the state object lost its [name] or
    [config_dir]), the exception reaches the caller with nothing written,
    and a later [closeEvent] returns at once without saving either. *)
Theorem closeEvent_save_fails (w : world) (e : exn) :
  _closed (gui w) = false ->
  py_in (PBool false) (returned (selected "close" SenderGUI w)) = false ->
  path (state (gui w)) = Raise e ->
  exists w',
    closeEvent w = (Raise e, w')
    /\ _closed (gui w') = true
    /\ fs w' = fs w
    /\ closeEvent w' = (Ok true, w').
Proof.
  intros Hc Hveto Hp. rewrite (closeEvent_open w Hc), Hveto.
  unfold save_geometry_state, save. unfold bind. simpl.
  rewrite path_insert by done. rewrite Hp. simpl.
  eexists. split; [reflexivity |]. split_and!; [done | done |].
  by apply closeEvent_closed.
Qed.

(** ** Constructing the state *)


(** ** The settings of a view *)

Lemma dict_get_set (k k' : string) (x : json) (d : list (string * json)) :
  dict_get k (dict_set k' x d) = if String.eqb k' k then Some x else dict_get k d.
Proof.
  induction d as [|[k0 x0] d IH]; simpl.
  - by destruct (String.eqb k' k).
  - destruct (String.eqb_spec k0 k') as [-> | Hne]; simpl.
    + by destruct (String.eqb k' k).
    + destruct (String.eqb_spec k0 k) as [-> | Hne'].
      * destruct (String.eqb_spec k' k) as [-> | _]; done.
      * apply IH.
Qed.

Lemma dict_get_update (k : string) (d other : list (string * json)) :
  dict_get k (dict_update d other)
  = match dict_get k (rev other) with
    | Some x => Some x
    | None => dict_get k d
    end.
Proof.
  unfold dict_update. induction other as [|[k' x] other IH] using rev_ind; [done |].
  rewrite foldl_snoc, rev_unit, dict_get_set. simpl.
  by destruct (String.eqb k' k).
Qed.

Lemma dict_get_not_key (k : string) (d : list (string * json)) :
  k ∉ d.*1 -> dict_get k d = None.
Proof.
  induction d as [|[k' x] d IH]; [done |]. simpl.
  rewrite not_elem_of_cons. intros [Hne Hd].
  destruct (String.eqb_spec k' k); [congruence | by apply IH].
Qed.

Lemma dict_set_new (k : string) (x : json) (d : list (string * json)) :
  k ∉ d.*1 -> dict_set k x d = d ++ [(k, x)].
Proof.
  induction d as [|[k' x'] d IH]; [done |]. simpl.
  rewrite not_elem_of_cons. intros [Hne Hd].
  destruct (String.eqb_spec k' k); [congruence |]. by rewrite IH.
Qed.

(** Updating with a dictionary of new keys appends its items. *)
Lemma dict_update_new (d other : list (string * json)) :
  NoDup (d.*1 ++ other.*1) -> dict_update d other = d ++ other.
Proof.
  unfold dict_update. revert d. induction other as [|[k x] other IH]; intros d Hnd.
  - by rewrite app_nil_r.
  - simpl in *. rewrite dict_set_new.
    + rewrite IH; [by rewrite <- app_assoc |].
      rewrite fmap_app. simpl. rewrite <- app_assoc. done.
    + apply NoDup_app in Hnd as (_ & Hdisj & _). intros Hin.
      apply (Hdisj k Hin). left.
Qed.

(** X12: [update_view_state] followed by [get_view_state].  For a named
    view whose entry in the state is absent or a dictionary, the update
    returns normally and the view's settings then hold, under each key,
    the last value the update gives for it, or else the value held
    before; the entries of the state under other names are untouched.
    For a view without settings and an update with distinct keys the
    settings are the update itself. *)
Theorem update_view_state_get (s : gmap string json) (v : view)
    (st d : list (string * json)) (n : string) (w : world) :
  view_name w !! v = Some n ->
  s !! n = None /\ d = [] \/ s !! n = Some (JDict d) ->
  exists s',
    update_view_state s v st w
    = (Ok s', add_trace [Log "debug" "Update GUI state for %s"] w)
    /\ get_view_state s' v w = (Ok (JDict (dict_update d st)), w)
    /\ (forall k, dict_get k (dict_update d st)
                  = match dict_get k (rev st) with
                    | Some x => Some x
                    | None => dict_get k d
                    end)
    /\ (forall n', n' <> n -> s' !! n' = s !! n')
    /\ (d = [] -> NoDup st.*1 -> dict_update d st = st).
Proof.
  intros Hv Hs.
  exists (<[n := JDict (dict_update d st)]> s). split_and!.
  - unfold update_view_state, getattr_name. unfold bind at 1. unfold bind at 1.
    simpl. rewrite Hv. simpl.
    destruct Hs as [[Hs ->] | Hs]; rewrite Hs.
    + rewrite lookup_insert_eq. unfold bind. simpl. by rewrite insert_insert_eq.
    + rewrite Hs. done.
  - unfold get_view_state, getattr_name. unfold bind at 1. unfold bind at 1.
    simpl. rewrite Hv. simpl. by rewrite lookup_insert_eq.
  - intros k. apply dict_get_update.
  - intros n' Hne. by rewrite lookup_insert_ne.
  - intros -> Hnd. by rewrite dict_update_new.
Qed.

(** X13: [update_view_state] raises [AttributeError], and changes
    nothing, for a view that was never named and for a view whose entry in
    the state is not a dictionary. *)
Theorem update_view_state_raises (s : gmap string json) (v : view)
    (st : list (string * json)) (w : world) :
  (view_name w !! v = None
   \/ exists n x, view_name w !! v = Some n /\ s !! n = Some x
                  /\ forall d, x <> JDict d) ->
  update_view_state s v st w = (Raise AttributeError, w).
Proof.
  unfold update_view_state, getattr_name. unfold bind at 1. unfold bind at 1. simpl.
  intros [Hv | (n & x & Hv & Hs & Hx)]; rewrite Hv; [done |]. simpl.
  rewrite Hs, Hs. destruct x; try done. by destruct (Hx l).
Qed.

(** ** Restoring the geometry *)


Lemma GUIState__init___document (phy_config_dir name c : string)
    (kwargs d : gmap string json) (w : world) :
  c <> "" ->
  fs w !! op_join (op_join c name) "state.json" = Some (Document d) ->
  GUIState__init__ phy_config_dir name (Some c) kwargs w
  = (Ok (d ∪ <["config_dir" := JStr c]> (<["name" := JStr name]> kwargs)),
     add_trace [Log "debug" "Load the GUI state from `%s`."] w).
Proof.
  intros Hne Hfs. unfold GUIState__init__.
  assert (Hc' : (if String.eqb c "" then phy_config_dir else c) = c).
  { by destruct (String.eqb_spec c ""). }
  rewrite Hc'. unfold load.
  assert (Hp : path (<["config_dir" := JStr c]> (<["name" := JStr name]> kwargs))
               = Ok (op_join (op_join c name) "state.json")).
  { unfold path. rewrite lookup_insert_eq, lookup_insert_ne, lookup_insert_eq; done. }
  unfold lift. rewrite Hp. rewrite (bind_ok _ _ w w _ eq_refl), bind_get.
  rewrite Hfs. by rewrite bind_tell.
Qed.

(** X15: the geometry captured when a window closes is what the next
    session restores.  After a close that is not vetoed, a window
    constructed for the same name and configuration directory on the
    resulting disk restores, in its [show] listener, the two blobs the
    closed window reported, whatever keyword arguments it is given. *)
Theorem geometry_restored_next_session (phy_config_dir : string) (w : world)
    (n c : string) (kwargs : gmap string json)
    (connected : list (callback * option sender)) (geometry dock_state : string) :
  _closed (gui w) = false ->
  py_in (PBool false) (returned (selected "close" SenderGUI w)) = false ->
  state (gui w) !! "name" = Some (JStr n) ->
  state (gui w) !! "config_dir" = Some (JStr c) ->
  c <> "" ->
  saveGeometry w <> "" ->
  saveState w <> "" ->
  let w' := (GUI__init__ phy_config_dir (Some n) (Some c) kwargs
               (environment (fs (closeEvent w).2) connected geometry dock_state)).2 in
  on_show (gui w')
  = (Ok tt, [restoreGeometry (JBytes (saveGeometry w));
             restoreState (JBytes (saveState w))]).
Proof.
  intros Hc Hveto Hn Hcd Hne Hg Hs w'. subst w'.
  assert (Hp : path (state (gui w)) = Ok (op_join (op_join c n) "state.json")).
  { unfold path. by rewrite Hcd, Hn. }
  assert (Hfs : fs (closeEvent w).2 !! op_join (op_join c n) "state.json"
                = Some (Document
                    (filter (fun kv => kv.1 ∉ ["config_dir"; "name"])
                       (<["geometry_state" :=
                            JDict [("geometry", JBytes (saveGeometry w));
                                   ("state", JBytes (saveState w))]]>
                          (state (gui w)))))).
  { rewrite (closeEvent_open w Hc), Hveto.
    unfold save_geometry_state, save. unfold bind. simpl.
    rewrite path_insert by done. rewrite Hp. simpl. by rewrite lookup_insert_eq. }
  unfold on_show, GUI__init__. rewrite bind_modify.
  erewrite bind_ok; [| by apply GUIState__init___document]. 
  cbn -[filter union]. rewrite lookup_union, map_lookup_filter.
  rewrite lookup_insert_eq. simpl.
  assert (Hu : forall o : option json,
            Some (JDict [("geometry", JBytes (saveGeometry w));
                         ("state", JBytes (saveState w))]) ∪ o
            = Some (JDict [("geometry", JBytes (saveGeometry w));
                           ("state", JBytes (saveState w))])).
  { by intros [?|]. }
  rewrite Hu. unfold restore_geometry_state. simpl.
  destruct (String.eqb_spec (saveGeometry w) ""); [done |].
  by destruct (String.eqb_spec (saveState w) "").
Qed.

(** ** Menus *)

Lemma get_menu_cached (name : string) (m : Menus) :
  _menus (get_menu name m).2 !! name = Some (get_menu name m).1.
Proof.
  unfold get_menu. destruct (_menus m !! name) as [h|] eqn:Hm; simpl; [done |].
  by rewrite lookup_insert_eq.
Qed.

(** The cache and the menu bar agree: a name is cached under the position
    of its menu, and the bar holds each name once. *)
Lemma get_menu_agree (name : string) (m : Menus) :
  (forall n h, _menus m !! n = Some h <-> menuBar m !! h = Some n) ->
  NoDup (menuBar m) ->
  (forall n h, _menus (get_menu name m).2 !! n = Some h
               <-> menuBar (get_menu name m).2 !! h = Some n)
  /\ NoDup (menuBar (get_menu name m).2).
Proof.
  intros Hag Hnd. unfold get_menu.
  destruct (_menus m !! name) as [h0|] eqn:Hm; simpl; [done |].
  assert (Hnew : name ∉ menuBar m).
  { intros Hin. apply list_elem_of_lookup in Hin as [h Hh].
    apply Hag in Hh. congruence. }
  split.
  - intros n h. destruct (decide (n = name)) as [-> | Hne].
    + rewrite lookup_insert_eq. split.
      * intros [= <-]. by rewrite lookup_app_r, Nat.sub_diag.
      * intros Hh. apply lookup_snoc_Some in Hh as [[_ Hh] | [-> _]]; [| done].
        exfalso. apply Hnew. by eapply list_elem_of_lookup_2.
    + rewrite lookup_insert_ne by done. rewrite Hag. split.
      * intros Hh. by apply lookup_app_l_Some.
      * intros Hh. apply lookup_snoc_Some in Hh as [[_ Hh] | [_ ?]]; [done | congruence].
  - apply NoDup_app. split_and!; [done | | apply NoDup_singleton].
    intros x Hx Hx'. apply list_elem_of_singleton in Hx' as ->. done.
Qed.

(** X16: the menus of a window after any sequence of [get_menu] calls.
    The menu bar holds one menu per name asked for, in the order of the
    first requests; the cache maps each name to the position of its menu;
    and asking again for a name returns the menu it was given the first
    time and adds nothing to the bar. *)
Theorem get_menu_once (names : list string) (name : string) :
  let m := foldl (fun m n => (get_menu n m).2) {| _menus := ∅; menuBar := [] |} names in
  NoDup (menuBar m)
  /\ (forall n, n ∈ menuBar m <-> n ∈ names)
  /\ (forall n h, _menus m !! n = Some h <-> menuBar m !! h = Some n)
  /\ menuBar (get_menu name m).2 !! (get_menu name m).1 = Some name
  /\ get_menu name (get_menu name m).2 = ((get_menu name m).1, (get_menu name m).2).
Proof.
  intros m. subst m.
  assert (H : let m := foldl (fun m n => (get_menu n m).2)
                         {| _menus := ∅; menuBar := [] |} names in
              (forall n h, _menus m !! n = Some h <-> menuBar m !! h = Some n)
              /\ NoDup (menuBar m)
              /\ (forall n, n ∈ menuBar m <-> n ∈ names)).
  { induction names as [|n0 names IH] using rev_ind.
    - simpl. split_and!.
      + intros n h. by rewrite lookup_empty, lookup_nil.
      + apply NoDup_nil_2.
      + intros n. by rewrite !elem_of_nil.
    - rewrite foldl_snoc. destruct IH as (Hag & Hnd & Hin). cbv zeta.
      destruct (get_menu_agree n0 _ Hag Hnd) as [Hag' Hnd'].
      split_and!; [done | done |].
      intros n. rewrite elem_of_app, list_elem_of_singleton, <- Hin.
      unfold get_menu. destruct (_menus _ !! n0) as [h|] eqn:Hm; simpl.
      + split; [tauto |]. intros [? | ->]; [done |].
        apply Hag in Hm. by eapply list_elem_of_lookup_2.
      + by rewrite elem_of_app, list_elem_of_singleton. }
  destruct H as (Hag & Hnd & Hin).
  destruct (get_menu_agree name _ Hag Hnd) as [Hag' _].
  split_and!; try done.
  - apply Hag'. apply get_menu_cached.
  - unfold get_menu at 1. by rewrite get_menu_cached.
Qed.

(** ** The path of the state file *)

Lemma append_assoc (a b c : string) : (a +:+ b) +:+ c = a +:+ (b +:+ c).
Proof.
  induction a as [|x a IH]; [done |].
  change (String x ((a +:+ b) +:+ c) = String x (a +:+ (b +:+ c))). by rewrite IH.
Qed.

Lemma substring_append_last (a b : string) :
  b <> "" ->
  substring (String.length (a +:+ b) - 1) 1 (a +:+ b)
  = substring (String.length b - 1) 1 b.
Proof.
  intros Hb. induction a as [|x a IH]; [done |].
  change (String x a +:+ b) with (String x (a +:+ b)).
  change (String.length (String x (a +:+ b)))
    with (S (String.length (a +:+ b))).
  assert (Hlen : (1 <= String.length (a +:+ b))%nat).
  { rewrite length_append. destruct b; [done | simpl; lia]. }
  remember (String.length (a +:+ b) - 1)%nat as m eqn:Hm.
  replace (S (String.length (a +:+ b)) - 1)%nat with (S m) by lia.
  exact IH.
Qed.

(** X17: the path of the state file.  For a configuration directory and
    a name that are not empty and do not end with a slash, the path is
    [config_dir/name/state.json] when the name does not start with a
    slash, and [name/state.json], without the configuration directory,
    when it does. *)
Theorem path_format (s : gmap string json) (c n : string) :
  s !! "config_dir" = Some (JStr c) ->
  s !! "name" = Some (JStr n) ->
  c <> "" -> n <> "" ->
  String.eqb (substring (String.length c - 1) 1 c) "/" = false ->
  String.eqb (substring (String.length n - 1) 1 n) "/" = false ->
  path s = Ok (if String.prefix "/" n then n +:+ "/state.json"
               else c +:+ "/" +:+ n +:+ "/state.json").
Proof.
  intros Hc Hn Hc0 Hn0 Hce Hne. unfold path. rewrite Hc, Hn. f_equal.
  assert (Hjoin : forall a, a <> "" ->
            String.eqb (substring (String.length a - 1) 1 a) "/" = false ->
            op_join a "state.json" = a +:+ "/state.json").
  { intros a Ha Hae. unfold op_join. simpl. rewrite Hae.
    destruct (String.eqb_spec a ""); done. }
  unfold op_join at 2. destruct (String.prefix "/" n) eqn:Hpre.
  - by apply Hjoin.
  - rewrite Hce. destruct (String.eqb_spec c ""); [done |]. simpl.
    rewrite Hjoin.
    + by rewrite !append_assoc.
    + by destruct c.
    + rewrite <- append_assoc, substring_append_last by done. done.
Qed.

(** ** Adding a view and closing its dock *)

Lemma snoc_split_unique {A : Type} (l l1 l2 : list A) (x : A) :
  x ∉ l -> x ∉ l1 -> l ++ [x] = l1 ++ x :: l2 -> l1 = l /\ l2 = [].
Proof.
  revert l. induction l1 as [|y l1 IH]; intros l Hl Hl1 Heq.
  - destruct l as [|z l]; simpl in Heq.
    + by injection Heq as <-.
    + injection Heq as -> _. exfalso. apply Hl. left.
  - apply not_elem_of_cons in Hl1 as [Hne Hl1].
    destruct l as [|z l]; simpl in Heq.
    + injection Heq as -> _. done.
    + injection Heq as -> Heq. apply not_elem_of_cons in Hl as [_ Hl].
      destruct (IH l Hl Hl1 Heq) as [-> ->]. done.
Qed.

Section AddClose.

Variables (phy_config_dir : string) (name config_dir : option string)
  (kwargs : gmap string json) (files : gmap string file)
  (connected : list (callback * option sender)) (geometry dock_state : string)
  (ops : list op).

Let w : world :=
  run ops (GUI__init__ phy_config_dir name config_dir kwargs
             (environment files connected geometry dock_state)).2.

(** X18: adding a view and then closing the dock that [add_view]
    returned gives back the tracked list there was before, in the same
    order; the counter of the view's class stays one higher than it was,
    and the view keeps the name it was given. *)
Theorem add_view_then_close (v : view) (position : option string) (a : DockArea)
    (closable floatable : bool) (floating : option bool) :
  forallb (fun c => is_listener c.1) connected = true ->
  v ∉ _views (gui w) ->
  _get_dock_position position = Ok a ->
  let r := add_view v position closable floatable floating w in
  let r' := DockWidget_closeEvent (length (docks w)) r.2 in
  r.1 = Ok (length (docks w))
  /\ r'.1 = Ok tt
  /\ _views (gui r'.2) = _views (gui w)
  /\ counter (gui r'.2) (__class__ v) = counter (gui w) (__class__ v) + 1
  /\ view_name r'.2 !! v = Some (next_name (gui w) v).
Proof.
  intros Hconn Hnin Hpos r r'. subst r r'.
  destruct (GUI__init___spec phy_config_dir name config_dir kwargs files connected
              geometry dock_state) as (_ & Hv0 & _ & _ & Hc0 & Hd0 & _).
  assert (Hw : named w /\ wired w).
  { apply named_wired_run. split; [apply named_new_window |]. split.
    - intros d'. rewrite Hc0, Hd0. by apply handlers_listeners.
    - rewrite Hv0. apply NoDup_nil_2. }
  destruct Hw as [Hnamed [Hh _]].
  destruct (_set_view_name_named v w Hnamed) as [[Hin _] | [_ Hn]]; [done |].
  destruct (add_view_named v position closable floatable floating w Hn)
    as (Hg & Hheap & _ & _ & _ & Hdock).
  rewrite Hpos in Hdock. destruct Hdock as (Hr & _ & Hcb).
  set (w1 := (add_view v position closable floatable floating w).2) in *.
  assert (Hh1 : handlers (length (docks w)) (callbacks w1) = [v]).
  { rewrite Hcb, handlers_app, handlers_closure, decide_True by done.
    rewrite Hh, lookup_ge_None_2 by lia. done. }
  assert (Hin1 : v ∈ _views (gui w1)).
  { rewrite Hg. simpl. rewrite elem_of_app, list_elem_of_singleton. by right. }
  destruct (DockWidget_closeEvent_tracked _ v w1 Hh1 Hin1)
    as (before & after & l1 & l2 & _ & _ & _ & Hl & Hl1 & Hclose).
  rewrite Hclose. cbn -[next_name added].
  rewrite Hg in Hl. simpl in Hl.
  destruct (snoc_split_unique _ _ _ _ Hnin Hl1 Hl) as [-> ->].
  split_and!; try done.
  - by rewrite app_nil_r.
  - unfold counter at 1. simpl. rewrite Hg. simpl. by rewrite lookup_insert_eq.
  - by rewrite Hheap, lookup_insert_eq.
Qed.

End AddClose.

(** ** The further properties on the session *)

Lemma add_view_unknown_position_witness :
  (add_view foo2 (Some "center") true true None reopened).1 = Raise KeyError
  /\ _views (gui (add_view foo2 (Some "center") true true None reopened).2) = [foo2]
  /\ docks (add_view foo2 (Some "center") true true None reopened).2 = docks reopened.
Proof.
  assert (H1 : foo2 ∉ _views (gui reopened)).
  { apply (bool_decide_unpack _). vm_compute. exact I. }
  assert (H2 : "center" ∉ [""; "left"; "right"; "top"; "bottom"]).
  { apply (bool_decide_unpack _). vm_compute. exact I. }
  destruct (add_view_unknown_position "/home/user/.phy" None None ∅ ∅ []
              "geometry" "state" [AddView foo1 None true true None; CloseDock 0]
              foo2 "center" true true None H1 H2) as (Hr & Hg & _ & Hd & _).
  split_and!; [exact Hr | | exact Hd].
  refine (eq_trans (f_equal _views Hg) _). vm_compute. reflexivity.
Defined.


Lemma close_dock_twice_witness :
  exists before after,
    selected "close_dock_widget" (SenderDock 0) reopened
    = before ++ on_close_dock_widget foo1 :: after
    /\ DockWidget_closeEvent 0 reopened
       = (Raise ValueError,
          add_trace (Emit "close_dock_widget" (SenderDock 0) None :: called before)
            reopened).
Proof.
  assert (H1 : forallb (fun c : callback * option sender => is_listener c.1) [] = true)
    by reflexivity.
  assert (H2 : docks reopened !! 0%nat
               = Some {| objectName := "Foo"; widget := foo1; DockWidgetClosable := true;
                         DockWidgetFloatable := true;
                         dock_area := Some RightDockWidgetArea;
                         isFloating := false; isVisible := false |})
    by (vm_compute; reflexivity).
  assert (H3 : foo1 ∉ _views (gui reopened)).
  { apply (bool_decide_unpack _). vm_compute. exact I. }
  exact (close_dock_twice "/home/user/.phy" None None ∅ ∅ []
           "geometry" "state" [AddView foo1 None true true None; CloseDock 0]
           0%nat _ H1 H2 H3).
Defined.

Lemma closeEvent_save_fails_witness :
  exists w',
    closeEvent nameless = (Raise AttributeError, w')
    /\ _closed (gui w') = true
    /\ fs w' = fs nameless
    /\ closeEvent w' = (Ok true, w').
Proof.
  apply (closeEvent_save_fails nameless AttributeError);
    vm_compute; reflexivity.
Defined.

Lemma update_view_state_get_witness :
  exists s',
    update_view_state some_state foo1 [("scale", JInt 3)] two_views
    = (Ok s', add_trace [Log "debug" "Update GUI state for %s"] two_views)
    /\ get_view_state s' foo1 two_views
       = (Ok (JDict [("color", JStr "red"); ("scale", JInt 3)]), two_views).
Proof.
  destruct (update_view_state_get some_state foo1 [("scale", JInt 3)]
              [("color", JStr "red"); ("scale", JInt 2)] "Foo" two_views)
    as (s' & Hu & Hg & _).
  - vm_compute. reflexivity.
  - right. vm_compute. reflexivity.
  - exists s'. split; [exact Hu | exact Hg].
Defined.

Lemma update_view_state_raises_witness :
  update_view_state some_state foo1 [("scale", JInt 3)] new_window
  = (Raise AttributeError, new_window).
Proof.
  apply update_view_state_raises. left. vm_compute. reflexivity.
Defined.

Lemma geometry_restored_next_session_witness :
  on_show (gui (GUI__init__ "/etc/phy" (Some "GUI") (Some "/home/user/.phy") ∅
                  (environment (fs (closeEvent new_window).2) [] "" "")).2)
  = (Ok tt, [restoreGeometry (JBytes "geometry"); restoreState (JBytes "state")]).
Proof.
  apply (geometry_restored_next_session "/etc/phy" new_window "GUI" "/home/user/.phy"
           ∅ [] "" "");
    try (vm_compute; reflexivity); discriminate.
Defined.

Lemma path_format_witness :
  path some_state = Ok "/home/user/.phy/GUI/state.json".
Proof.
  apply (path_format some_state "/home/user/.phy" "GUI");
    try (vm_compute; reflexivity); discriminate.
Defined.

Lemma add_view_then_close_witness :
  _views (gui (DockWidget_closeEvent 2
                 (add_view foo3 None true true None two_views).2).2)
  = [foo1; foo2]
  /\ counter (gui (DockWidget_closeEvent 2
                     (add_view foo3 None true true None two_views).2).2) Foo
     = 3.
Proof.
  assert (H1 : forallb (fun c : callback * option sender => is_listener c.1) [] = true)
    by reflexivity.
  assert (H2 : foo3 ∉ _views (gui two_views)).
  { apply (bool_decide_unpack _). vm_compute. exact I. }
  assert (H3 : _get_dock_position None = Ok RightDockWidgetArea) by reflexivity.
  destruct (add_view_then_close "/home/user/.phy" None None ∅ ∅ []
              "geometry" "state"
              [AddView foo1 None true true None;
               AddView foo2 (Some "left") true false (Some true);
               Connect "close_dock_widget" 10 PNone (Some (SenderDock 0));
               Connect "close_view" 11 PNone (Some SenderGUI)]
              foo3 None RightDockWidgetArea true true None H1 H2 H3)
    as (_ & _ & Hv & Hc & _).
  split; [exact Hv | exact Hc].
Defined.
